(** * Verification of make-offline: the content injector and the
      generated service worker's caching policy.

    The development embeds [src/make-offline.js] (and the router of
    [src/example.js] where its notion of a path is needed):

    - JavaScript strings are sequences of UTF-16 code units; the two
      string methods the injector calls ([includes], [replace] with a
      string pattern) follow ECMA-262, including the [$]-patterns of
      the replacement text.
    - The injector [makeOffline] and the text returned by
      [generateServiceWorker] are transcribed from the source.
    - The handlers of the generated worker (install, activate, fetch,
      message) are embedded as state-passing functions over the cache
      storage of the host, with a trace of the platform calls made. *)

From Stdlib Require Import NArith ZArith String Ascii Lia.
From stdpp Require Import base option list gmap.

Local Open Scope N_scope.

(** ** JavaScript strings *)

Abbreviation code_unit := N (only parsing).
Abbreviation jsstring := (list N) (only parsing).

(** An ASCII literal of the source, as code units. *)
Definition js (s : string) : jsstring :=
  map N_of_ascii (list_ascii_of_string s).
Arguments js s%_string.

Definition DQUOTE : jsstring := [0x22].
Definition LF : code_unit := 0x0A.
(** U+1F4F1 MOBILE PHONE, a surrogate pair in UTF-16. *)
Definition MOBILE_PHONE : jsstring := [0xD83D; 0xDCF1].

(** The value of a template literal without substitutions: its lines,
    joined by line feeds. *)
Fixpoint template (lines : list jsstring) : jsstring :=
  match lines with
  | [] => []
  | [l] => l
  | l :: ls => l ++ LF :: template ls
  end.

Module JsString.

(** [search] occurs in [s] at index 0. *)
Fixpoint startsWith (s search : jsstring) : bool :=
  match search, s with
  | [], _ => true
  | _ :: _, [] => false
  | c :: search', d :: s' => (c =? d) && startsWith s' search'
  end.

(** StringIndexOf(s, search, 0): the smallest index at which [search]
    occurs in [s]; [None] stands for -1 (ECMA-262, 6.1.4.1). *)
Fixpoint StringIndexOf (s search : jsstring) : option nat :=
  if startsWith s search then Some 0%nat
  else match s with
       | [] => None
       | _ :: s' => S <$> StringIndexOf s' search
       end.

(** String.prototype.includes(search). *)
Definition includes (s search : jsstring) : bool :=
  match StringIndexOf s search with
  | Some _ => true
  | None => false
  end.

(** GetSubstitution (ECMA-262, 22.1.3.19.1) for a string pattern:
    there are no captures and no named groups, so of the [$]-patterns
    only [$$], [$&], [$`] and [$'] are replaced, and [$n], [$nn] and
    [$<] stand for themselves. *)
Fixpoint GetSubstitution (matched str : jsstring) (position : nat)
    (replacementTemplate : jsstring) : jsstring :=
  match replacementTemplate with
  | [] => []
  | c :: rest =>
      if c =? 0x24 then
        match rest with
        | [] => [c]
        | d :: rest' =>
            if d =? 0x24 then
              0x24 :: GetSubstitution matched str position rest'
            else if d =? 0x60 then
              take position str
                ++ GetSubstitution matched str position rest'
            else if d =? 0x26 then
              matched ++ GetSubstitution matched str position rest'
            else if d =? 0x27 then
              drop (position + length matched) str
                ++ GetSubstitution matched str position rest'
            else c :: GetSubstitution matched str position rest
        end
      else c :: GetSubstitution matched str position rest
  end.

(** String.prototype.replace(searchValue, replaceValue) with both
    arguments strings: the first occurrence only. *)
Definition replace (s searchValue replaceValue : jsstring) : jsstring :=
  match StringIndexOf s searchValue with
  | None => s
  | Some pos =>
      let preceding := take pos s in
      let following := drop (pos + length searchValue) s in
      preceding
        ++ GetSubstitution searchValue s pos replaceValue
        ++ following
  end.

(** Reading aids for the statements: [search] occurs in [s] at index
    [i], and the number of indices at which it occurs. *)
Definition occursAt (s search : jsstring) (i : nat) : bool :=
  bool_decide (i ≤ length s)%nat && startsWith (drop i s) search.

Fixpoint occurrences (s search : jsstring) : nat :=
  ((if startsWith s search then 1 else 0)
   + match s with
     | [] => 0
     | _ :: s' => occurrences s' search
     end)%nat.

End JsString.

(** ** make-offline.js: the injector *)

Definition offlineScripts : jsstring :=
  template [
    [];
    js "    <!-- Offline functionality injected by makeOffline() -->";
    js "    <style id=" ++ DQUOTE ++ js "offline-styles" ++ DQUOTE ++ js ">";
    js "      .offline-banner {";
    js "        position: fixed;";
    js "        top: 0;";
    js "        left: 0;";
    js "        right: 0;";
    js "        background: #f8d7da;";
    js "        color: #721c24;";
    js "        padding: 10px;";
    js "        text-align: center;";
    js "        z-index: 10000;";
    js "        display: none;";
    js "        font-family: -apple-system, BlinkMacSystemFont, 'Segoe UI', Roboto, sans-serif;";
    js "      }";
    js "      .offline-banner.show { display: block; }";
    js "      .update-banner {";
    js "        position: fixed;";
    js "        bottom: 20px;";
    js "        right: 20px;";
    js "        background: #fff3cd;";
    js "        color: #856404;";
    js "        padding: 15px;";
    js "        border-radius: 5px;";
    js "        box-shadow: 0 2px 10px rgba(0,0,0,0.2);";
    js "        display: none;";
    js "        z-index: 10001;";
    js "        font-family: -apple-system, BlinkMacSystemFont, 'Segoe UI', Roboto, sans-serif;";
    js "      }";
    js "      .update-banner.show { display: block; }";
    js "      .update-banner button {";
    js "        background: #007bff;";
    js "        color: white;";
    js "        border: none;";
    js "        padding: 5px 10px;";
    js "        border-radius: 3px;";
    js "        cursor: pointer;";
    js "        margin-left: 10px;";
    js "      }";
    js "    </style>";
    js "    ";
    js "    <div class=" ++ DQUOTE ++ js "offline-banner" ++ DQUOTE ++ js " id=" ++ DQUOTE ++ js "offline-banner" ++ DQUOTE ++ js ">";
    js "      " ++ MOBILE_PHONE ++ js " You're offline! Showing cached content.";
    js "    </div>";
    js "    ";
    js "    <div class=" ++ DQUOTE ++ js "update-banner" ++ DQUOTE ++ js " id=" ++ DQUOTE ++ js "update-banner" ++ DQUOTE ++ js ">";
    js "      " ++ MOBILE_PHONE ++ js " New version available!";
    js "      <button onclick=" ++ DQUOTE ++ js "window.offlineHelper.updateApp()" ++ DQUOTE ++ js ">Update</button>";
    js "    </div>";
    [];
    js "    <script>";
    js "      // Offline helper functionality";
    js "      window.offlineHelper = {";
    js "        isOnline: navigator.onLine,";
    js "        serviceWorker: null,";
    js "        ";
    js "        init() {";
    js "          this.updateStatus();";
    js "          this.registerServiceWorker();";
    js "          this.setupEventListeners();";
    js "        },";
    js "        ";
    js "        async registerServiceWorker() {";
    js "          if ('serviceWorker' in navigator) {";
    js "            try {";
    js "              const registration = await navigator.serviceWorker.register('/sw.js');";
    js "              this.serviceWorker = registration;";
    js "              ";
    js "              registration.addEventListener('updatefound', () => {";
    js "                const newWorker = registration.installing;";
    js "                newWorker.addEventListener('statechange', () => {";
    js "                  if (newWorker.state === 'installed' && navigator.serviceWorker.controller) {";
    js "                    this.showUpdateBanner();";
    js "                  }";
    js "                });";
    js "              });";
    js "            } catch (err) {";
    js "              console.log('SW registration failed:', err);";
    js "            }";
    js "          }";
    js "        },";
    js "        ";
    js "        setupEventListeners() {";
    js "          window.addEventListener('online', () => {";
    js "            this.isOnline = true;";
    js "            this.updateStatus();";
    js "          });";
    js "          ";
    js "          window.addEventListener('offline', () => {";
    js "            this.isOnline = false;";
    js "            this.updateStatus();";
    js "          });";
    js "          ";
    js "          if ('serviceWorker' in navigator) {";
    js "            navigator.serviceWorker.addEventListener('message', event => {";
    js "              if (event.data.type === 'CACHE_UPDATED') {";
    js "                this.showUpdateBanner();";
    js "              }";
    js "            });";
    js "          }";
    js "        },";
    js "        ";
    js "        updateStatus() {";
    js "          const banner = document.getElementById('offline-banner');";
    js "          if (this.isOnline) {";
    js "            banner.classList.remove('show');";
    js "          } else {";
    js "            banner.classList.add('show');";
    js "          }";
    js "        },";
    js "        ";
    js "        showUpdateBanner() {";
    js "          document.getElementById('update-banner').classList.add('show');";
    js "        },";
    js "        ";
    js "        updateApp() {";
    js "          if (this.serviceWorker && this.serviceWorker.waiting) {";
    js "            this.serviceWorker.waiting.postMessage({ type: 'SKIP_WAITING' });";
    js "            window.location.reload();";
    js "          }";
    js "        }";
    js "      };";
    js "      ";
    js "      // Initialize when DOM is ready";
    js "      if (document.readyState === 'loading') {";
    js "        document.addEventListener('DOMContentLoaded', () => window.offlineHelper.init());";
    js "      } else {";
    js "        window.offlineHelper.init();";
    js "      }";
    js "    </script>";
    js "  "
  ].

(** [makeOffline(html)]. *)
Definition makeOffline (html : jsstring) : jsstring :=
  if JsString.includes html (js "</body>") then
    JsString.replace html (js "</body>") (offlineScripts ++ js "</body>")
  else
    html ++ offlineScripts.


(** ** The host runtime of the generated worker

    The worker script uses the platform through [caches], [fetch],
    [self.clients], [self.skipWaiting], [console], [Response], [JSON]
    and [Date]. They are modelled at the level the script observes. *)

Record Request := {
  method : jsstring;
  url : jsstring
}.

Record Response := {
  status : N;
  statusText : jsstring;
  headers : list (jsstring * jsstring);
  body : jsstring
}.

(** [response.ok]: the status is in the range 200 to 299. *)
Definition ok (response : Response) : bool :=
  (200 <=? status response) && (status response <=? 299).

(** [response.clone()]: a second response with the same status, headers
    and body. *)
Definition clone (response : Response) : Response :=
  {| status := status response;
     statusText := statusText response;
     headers := headers response;
     body := body response |}.

(** The key under which a cache files a request. *)
Definition identity (request : Request) : jsstring * jsstring :=
  (method request, url request).

(** A cache maps request identities to responses; the cache storage
    lists the named caches in the order of their creation, which is
    the order of [caches.keys()] and of the search of
    [caches.match()]. *)
Abbreviation Cache := (gmap (jsstring * jsstring) Response) (only parsing).
Abbreviation CacheStorage := (list (jsstring * Cache)) (only parsing).

Module Storage.

Definition keys (cs : CacheStorage) : list jsstring := cs.*1.

Fixpoint get (cacheName : jsstring) (cs : CacheStorage) : option Cache :=
  match cs with
  | [] => None
  | (n, c) :: cs' =>
      if decide (n = cacheName) then Some c else get cacheName cs'
  end.

(** [caches.open(name)] creates the cache when there is none. *)
Definition open (cacheName : jsstring) (cs : CacheStorage) : CacheStorage :=
  match get cacheName cs with
  | Some _ => cs
  | None => cs ++ [(cacheName, ∅)]
  end.

(** [caches.delete(name)]. *)
Fixpoint delete (cacheName : jsstring) (cs : CacheStorage) : CacheStorage :=
  match cs with
  | [] => []
  | (n, c) :: cs' =>
      if decide (n = cacheName) then delete cacheName cs'
      else (n, c) :: delete cacheName cs'
  end.

(** [cache.put(request, response)] on the cache named [cacheName]:
    an entry of the same identity is overwritten. *)
Fixpoint put (cacheName : jsstring) (request : Request)
    (response : Response) (cs : CacheStorage) : CacheStorage :=
  match cs with
  | [] => []
  | (n, c) :: cs' =>
      if decide (n = cacheName)
      then (n, <[identity request := response]> c) :: cs'
      else (n, c) :: put cacheName request response cs'
  end.

(** [caches.match(request)]: the entry of the first cache, in
    creation order, that has one. *)
Fixpoint match_ (request : Request) (cs : CacheStorage) : option Response :=
  match cs with
  | [] => None
  | (_, c) :: cs' =>
      match c !! identity request with
      | Some response => Some response
      | None => match_ request cs'
      end
  end.

End Storage.

(** Calls the worker makes on the platform, in the order it makes
    them. *)
Inductive Call :=
| ConsoleLog (args : list jsstring)
| SkipWaiting
| CachesKeys
| CachesDelete (cacheName : jsstring)
| ClientsClaim
| Fetch (request : Request)
| CachesOpen (cacheName : jsstring)
| CachePut (cacheName : jsstring) (request : Request) (response : Response)
| CachesMatch (request : Request).

Record Runtime := {
  caches : CacheStorage;
  (** the clock read by [new Date()], in milliseconds since the epoch *)
  now : Z;
  (** whether [self.clients.claim()] has taken effect *)
  claimed : bool;
  (** whether [self.skipWaiting()] has taken effect *)
  skippedWaiting : bool;
  trace : list Call
}.

(** Worker code runs against the runtime and leaves a new runtime. A
    handler's final runtime is the one reached when the promise chain
    it started has settled. *)
Definition Worker (A : Type) : Type := Runtime → A * Runtime.

#[global] Instance Worker_ret : MRet Worker := λ A x rt, (x, rt).
#[global] Instance Worker_bind : MBind Worker := λ A B f m rt,
  let '(x, rt') := m rt in f x rt'.

Definition call (c : Call) (rt : Runtime) : Runtime :=
  {| caches := caches rt; now := now rt; claimed := claimed rt;
     skippedWaiting := skippedWaiting rt; trace := trace rt ++ [c] |}.

Definition with_caches (cs : CacheStorage) (rt : Runtime) : Runtime :=
  {| caches := cs; now := now rt; claimed := claimed rt;
     skippedWaiting := skippedWaiting rt; trace := trace rt |}.

Module Platform.

Definition console_log (args : list jsstring) : Worker unit :=
  λ rt, ((), call (ConsoleLog args) rt).

Definition skipWaiting : Worker unit :=
  λ rt, ((), {| caches := caches rt; now := now rt; claimed := claimed rt;
                skippedWaiting := true;
                trace := trace rt ++ [SkipWaiting] |}).

Definition clients_claim : Worker unit :=
  λ rt, ((), {| caches := caches rt; now := now rt; claimed := true;
                skippedWaiting := skippedWaiting rt;
                trace := trace rt ++ [ClientsClaim] |}).

Definition caches_keys : Worker (list jsstring) :=
  λ rt, (Storage.keys (caches rt), call CachesKeys rt).

Definition caches_delete (cacheName : jsstring) : Worker unit :=
  λ rt, ((), call (CachesDelete cacheName)
               (with_caches (Storage.delete cacheName (caches rt)) rt)).

Definition caches_open (cacheName : jsstring) : Worker unit :=
  λ rt, ((), call (CachesOpen cacheName)
               (with_caches (Storage.open cacheName (caches rt)) rt)).

Definition cache_put (cacheName : jsstring) (request : Request)
    (response : Response) : Worker unit :=
  λ rt, ((), call (CachePut cacheName request response)
               (with_caches
                  (Storage.put cacheName request response (caches rt)) rt)).

Definition caches_match (request : Request) : Worker (option Response) :=
  λ rt, (Storage.match_ request (caches rt), call (CachesMatch request) rt).

(** [fetch(request)] against a network [net]: [None] is a rejected
    promise. *)
Definition fetch (net : Request → option Response) (request : Request)
    : Worker (option Response) :=
  λ rt, (net request, call (Fetch request) rt).

Definition Date_now : Worker Z := λ rt, (now rt, rt).

End Platform.

(** ** Built-ins the worker calls *)

Module Builtins.

Definition toLowerASCII (s : jsstring) : jsstring :=
  map (λ c, if (0x41 <=? c) && (c <=? 0x5A) then c + 0x20 else c) s.

(** [new Response(body, init)] with a string [body]. The members of
    [init] that the script leaves out take their defaults (status
    200, empty status text, no headers); header names are kept in
    lower case; a string body brings the content type of plain text
    unless [init.headers] names one. *)
Record ResponseInit := {
  init_status : option N;
  init_statusText : option jsstring;
  init_headers : list (jsstring * jsstring)
}.

Definition new_Response (body : jsstring) (init : ResponseInit) : Response :=
  let hs := map (λ h, (toLowerASCII h.1, h.2)) (init_headers init) in
  {| status := default 200 (init_status init);
     statusText := default [] (init_statusText init);
     headers :=
       if bool_decide (js "content-type" ∈ hs.*1) then hs
       else hs ++ [(js "content-type", js "text/plain;charset=UTF-8")];
     body := body |}.

(** Hexadecimal digit, lower case. *)
Definition hex_digit (n : N) : code_unit :=
  if n <? 10 then 0x30 + n else 0x61 + (n - 10).

(** UnicodeEscape: backslash, u and four hexadecimal digits. *)
Definition UnicodeEscape (c : code_unit) : jsstring :=
  [0x5C; 0x75; hex_digit (c / 4096 mod 16); hex_digit (c / 256 mod 16);
   hex_digit (c / 16 mod 16); hex_digit (c mod 16)].

Definition is_leading_surrogate (c : code_unit) : bool :=
  (0xD800 <=? c) && (c <=? 0xDBFF).
Definition is_trailing_surrogate (c : code_unit) : bool :=
  (0xDC00 <=? c) && (c <=? 0xDFFF).

Fixpoint QuoteJSONString_chars (s : jsstring) : jsstring :=
  match s with
  | [] => []
  | c :: rest =>
      if c =? 0x08 then [0x5C; 0x62] ++ QuoteJSONString_chars rest
      else if c =? 0x09 then [0x5C; 0x74] ++ QuoteJSONString_chars rest
      else if c =? 0x0A then [0x5C; 0x6E] ++ QuoteJSONString_chars rest
      else if c =? 0x0C then [0x5C; 0x66] ++ QuoteJSONString_chars rest
      else if c =? 0x0D then [0x5C; 0x72] ++ QuoteJSONString_chars rest
      else if c =? 0x22 then [0x5C; 0x22] ++ QuoteJSONString_chars rest
      else if c =? 0x5C then [0x5C; 0x5C] ++ QuoteJSONString_chars rest
      else if c <? 0x20 then UnicodeEscape c ++ QuoteJSONString_chars rest
      else if is_leading_surrogate c then
        match rest with
        | d :: rest' =>
            if is_trailing_surrogate d
            then c :: d :: QuoteJSONString_chars rest'
            else UnicodeEscape c ++ QuoteJSONString_chars rest
        | [] => UnicodeEscape c
        end
      else if is_trailing_surrogate c then
        UnicodeEscape c ++ QuoteJSONString_chars rest
      else c :: QuoteJSONString_chars rest
  end.

(** QuoteJSONString (ECMA-262, 25.5.2.3). *)
Definition QuoteJSONString (s : jsstring) : jsstring :=
  DQUOTE ++ QuoteJSONString_chars s ++ DQUOTE.

Fixpoint JSON_members (props : list (jsstring * jsstring)) : jsstring :=
  match props with
  | [] => []
  | [(k, v)] => QuoteJSONString k ++ js ":" ++ QuoteJSONString v
  | (k, v) :: props' =>
      QuoteJSONString k ++ js ":" ++ QuoteJSONString v ++ js ","
        ++ JSON_members props'
  end.

(** [JSON.stringify] of an object whose own properties, in order,
    are [props], all with string values; no indentation. *)
Definition JSON_stringify (props : list (jsstring * jsstring)) : jsstring :=
  js "{" ++ JSON_members props ++ js "}".

Local Open Scope Z_scope.

Definition msPerDay : Z := 86400000.

(** Year, month (1 to 12) and day of the month of a day number
    counted from 1970-01-01, in the proleptic Gregorian calendar:
    YearFromTime, MonthFromTime + 1 and DateFromTime. *)
Definition civil_from_days (days : Z) : Z * Z * Z :=
  let z := days + 719468 in
  let era := z / 146097 in
  let doe := z - era * 146097 in
  let yoe := (doe - doe / 1460 + doe / 36524 - doe / 146096) / 365 in
  let doy := doe - (365 * yoe + yoe / 4 - yoe / 100) in
  let mp := (5 * doy + 2) / 153 in
  let d := doy - (153 * mp + 2) / 5 + 1 in
  let m := if mp <? 10 then mp + 3 else mp - 9 in
  let y := yoe + era * 400 in
  (if m <=? 2 then y + 1 else y, m, d).

Definition digit (n : Z) : code_unit := (0x30 + Z.to_N (n mod 10))%N.

(** [n] in decimal, in exactly [width] digits. *)
Fixpoint digits (width : nat) (n : Z) : jsstring :=
  match width with
  | O => []
  | S w => digits w (n / 10) ++ [digit n]
  end.

(** [Date.prototype.toISOString] (ECMA-262, 21.4.4.36 and 21.4.1.32)
    for the time value [t]: YYYY-MM-DDTHH:mm:ss.sssZ, the year in
    four digits from 0 to 9999 and otherwise signed, in six. *)
Definition toISOString (t : Z) : jsstring :=
  let '(y, m, d) := civil_from_days (t / msPerDay) in
  let ms := t mod msPerDay in
  let year :=
    if (0 <=? y) && (y <=? 9999) then digits 4 y
    else (if y <? 0 then js "-" else js "+") ++ digits 6 (Z.abs y) in
  year ++ js "-" ++ digits 2 m ++ js "-" ++ digits 2 d ++ js "T"
    ++ digits 2 (ms / 3600000) ++ js ":"
    ++ digits 2 (ms / 60000 mod 60) ++ js ":"
    ++ digits 2 (ms / 1000 mod 60) ++ js "."
    ++ digits 3 (ms mod 1000) ++ js "Z".

Definition is_digit (c : code_unit) : bool :=
  ((0x30 <=? c) && (c <=? 0x39))%N.

(** The shape of an ISO-8601 date-time in UTC with milliseconds,
    the year in four digits or signed in six; [date] is the part
    after the year. *)
Definition is_ISO_8601_after_year (date : jsstring) : bool :=
  match date with
  | [h1; M1; M2; h2; D1; D2; T; H1; H2; c1; m1; m2; c2; s1; s2; p;
     f1; f2; f3; Z] =>
      forallb is_digit [M1; M2; D1; D2; H1; H2; m1; m2; s1; s2; f1; f2; f3]
      && bool_decide ([h1; h2; T; c1; c2; p; Z] = js "--T::.Z")
  | _ => false
  end.

Definition is_ISO_8601 (s : jsstring) : bool :=
  match s with
  | y1 :: y2 :: y3 :: y4 :: rest =>
      if is_digit y1 then
        forallb is_digit [y2; y3; y4] && is_ISO_8601_after_year rest
      else
        match rest with
        | y5 :: y6 :: y7 :: rest' =>
            bool_decide (y1 = 0x2B ∨ y1 = 0x2D)%N
            && forallb is_digit [y2; y3; y4; y5; y6; y7]
            && is_ISO_8601_after_year rest'
        | _ => false
        end
  | _ => false
  end.

(** [new URL(href).pathname] for the serialized URL of a request
    ([scheme://authority/path?query#fragment]): the part from the
    first slash after the authority up to the query or fragment. *)
Fixpoint skip_authority (s : jsstring) : jsstring :=
  match s with
  | [] => []
  | c :: s' =>
      if bool_decide (c ∈ js "/?#") then s else skip_authority s'
  end.

Fixpoint take_path (s : jsstring) : jsstring :=
  match s with
  | [] => []
  | c :: s' =>
      if bool_decide (c ∈ js "?#") then [] else c :: take_path s'
  end.

Definition URL_pathname (href : jsstring) : jsstring :=
  let after_scheme :=
    match JsString.StringIndexOf href (js "://") with
    | Some i => drop (i + 3) href
    | None => href
    end in
  match take_path (skip_authority after_scheme) with
  | [] => js "/"
  | path => path
  end.

End Builtins.

(** ** make-offline.js: the generated worker *)

Definition serviceWorkerSource : jsstring :=
  template [
    [];
    js "const CACHE_NAME = 'auto-offline-v1';";
    [];
    js "// Install event - just activate immediately";
    js "self.addEventListener('install', event => {";
    js "  console.log('SW Install - Auto-caching mode');";
    js "  event.waitUntil(self.skipWaiting());";
    js "});";
    [];
    js "// Activate event - clean up old caches";
    js "self.addEventListener('activate', event => {";
    js "  console.log('SW Activate');";
    js "  event.waitUntil(";
    js "    caches.keys().then(cacheNames => {";
    js "      return Promise.all(";
    js "        cacheNames.map(cacheName => {";
    js "          if (cacheName !== CACHE_NAME) {";
    js "            console.log('Deleting old cache:', cacheName);";
    js "            return caches.delete(cacheName);";
    js "          }";
    js "        })";
    js "      );";
    js "    }).then(() => self.clients.claim())";
    js "  );";
    js "});";
    [];
    js "// Fetch event - cache everything automatically";
    js "self.addEventListener('fetch', event => {";
    js "  if (event.request.method !== 'GET') return;";
    js "  ";
    js "  event.respondWith(";
    js "    fetch(event.request)";
    js "      .then(response => {";
    js "        // Always cache successful responses (except service worker itself)";
    js "        if (response.ok && !event.request.url.includes('/sw.js')) {";
    js "          const responseClone = response.clone();";
    js "          caches.open(CACHE_NAME)";
    js "            .then(cache => {";
    js "              cache.put(event.request, responseClone);";
    js "              console.log('Cached:', event.request.url);";
    js "            });";
    js "        }";
    js "        return response;";
    js "      })";
    js "      .catch(() => {";
    js "        // When offline, try to serve from cache";
    js "        return caches.match(event.request)";
    js "          .then(cachedResponse => {";
    js "            if (cachedResponse) {";
    js "              console.log('Serving from cache:', event.request.url);";
    js "              return cachedResponse;";
    js "            }";
    js "            ";
    js "            // For API calls, return a generic offline response";
    js "            if (event.request.url.includes('/api/')) {";
    js "              return new Response(JSON.stringify({";
    js "                error: 'Offline',";
    js "                message: 'No cached data available',";
    js "                timestamp: new Date().toISOString()";
    js "              }), {";
    js "                headers: { 'Content-Type': 'application/json' },";
    js "                status: 503";
    js "              });";
    js "            }";
    js "            ";
    js "            // For other requests, return a basic offline message";
    js "            return new Response('Offline - No cached version available', {";
    js "              status: 503,";
    js "              statusText: 'Service Unavailable'";
    js "            });";
    js "          });";
    js "      })";
    js "  );";
    js "});";
    [];
    js "// Handle skip waiting message";
    js "self.addEventListener('message', event => {";
    js "  if (event.data && event.data.type === 'SKIP_WAITING') {";
    js "    self.skipWaiting();";
    js "  }";
    js "});";
    []
  ].

(** [generateServiceWorker()]: no parameters, one template literal
    without substitutions. *)
Definition generateServiceWorker (_ : unit) : jsstring := serviceWorkerSource.

(** The handlers that the text above registers, statement by
    statement. *)
Module ServiceWorker.
Import Platform Builtins.

Definition CACHE_NAME : jsstring := js "auto-offline-v1".

(** [self.addEventListener('install', ...)] *)
Definition install : Worker unit :=
  console_log [js "SW Install - Auto-caching mode"];;
  skipWaiting.

(** [cacheNames.map(cacheName => ...)] inside [Promise.all]: the
    deletions are issued in the order of [cacheNames]. *)
Fixpoint delete_old_caches (cacheNames : list jsstring) : Worker unit :=
  match cacheNames with
  | [] => mret ()
  | cacheName :: rest =>
      (if decide (cacheName ≠ CACHE_NAME) then
         console_log [js "Deleting old cache:"; cacheName];;
         caches_delete cacheName
       else mret ());;
      delete_old_caches rest
  end.

(** [self.addEventListener('activate', ...)] *)
Definition activate : Worker unit :=
  console_log [js "SW Activate"];;
  cacheNames ← caches_keys;
  delete_old_caches cacheNames;;
  clients_claim.

Definition offline_api_response (timestamp : Z) : Response :=
  new_Response
    (JSON_stringify
       [(js "error", js "Offline");
        (js "message", js "No cached data available");
        (js "timestamp", toISOString timestamp)])
    {| init_headers := [(js "Content-Type", js "application/json")];
       init_status := Some 503;
       init_statusText := None |}.

Definition offline_response : Response :=
  new_Response (js "Offline - No cached version available")
    {| init_status := Some 503;
       init_statusText := Some (js "Service Unavailable");
       init_headers := [] |}.

(** [self.addEventListener('fetch', ...)]. The result is the response
    given to [event.respondWith]; [None] is the plain [return] that
    leaves the request to the browser. *)
Definition fetch_handler (net : Request → option Response)
    (request : Request) : Worker (option Response) :=
  if decide (method request ≠ js "GET") then mret None
  else
    fetched ← fetch net request;
    match fetched with
    | Some response =>
        (if ok response
            && negb (JsString.includes (url request) (js "/sw.js"))
         then
           let responseClone := clone response in
           caches_open CACHE_NAME;;
           cache_put CACHE_NAME request responseClone;;
           console_log [js "Cached:"; url request]
         else mret ());;
        mret (Some response)
    | None =>
        cachedResponse ← caches_match request;
        match cachedResponse with
        | Some cached =>
            console_log [js "Serving from cache:"; url request];;
            mret (Some cached)
        | None =>
            if JsString.includes (url request) (js "/api/") then
              t ← Date_now;
              mret (Some (offline_api_response t))
            else
              mret (Some offline_response)
        end
    end.

(** [self.addEventListener('message', ...)]: [data_type] is
    [event.data.type] when [event.data] is an object with that
    member. *)
Definition message (data_type : option jsstring) : Worker unit :=
  match data_type with
  | Some t => if decide (t = js "SKIP_WAITING") then skipWaiting else mret ()
  | None => mret ()
  end.

End ServiceWorker.

(** ** example.js: the route of the worker script *)

(** The router serves [generateServiceWorker()] exactly for the
    requests whose [url.pathname] is [/sw.js]. *)
Definition serves_worker_script (request : Request) : bool :=
  bool_decide (Builtins.URL_pathname (url request) = js "/sw.js").

(** ** Reading aids for the statements *)

(** The calls a handler made: the part of the trace of [rt'] that was
    added to the trace of [rt]. *)
Definition calls_since (rt rt' : Runtime) : list Call :=
  drop (length (trace rt)) (trace rt').

Definition is_CachePut (c : Call) : bool :=
  match c with
  | CachePut _ _ _ => true
  | _ => false
  end.

(** The calls of [ServiceWorker.delete_old_caches]. *)
Definition deletion_calls (cacheNames : list jsstring) : list Call :=
  flat_map
    (λ cacheName,
       if decide (cacheName ≠ ServiceWorker.CACHE_NAME)
       then [ConsoleLog [js "Deleting old cache:"; cacheName];
             CachesDelete cacheName]
       else [])
    cacheNames.

(** Concrete inputs for the examples. *)
Module Examples.

Definition fresh_runtime : Runtime :=
  {| caches := []; now := 1700000000000; claimed := false;
     skippedWaiting := false; trace := [] |}.

Definition GET (href : jsstring) : Request :=
  {| method := js "GET"; url := href |}.

Definition response_200 : Response :=
  {| status := 200; statusText := js "OK";
     headers := [(js "content-type", js "application/json")];
     body := js "{}" |}.

Definition response_404 : Response :=
  {| status := 404; statusText := js "Not Found";
     headers := [(js "content-type", js "text/plain;charset=UTF-8")];
     body := js "Not Found" |}.

Definition online (response : Response) : Request → option Response :=
  λ _, Some response.

Definition offline : Request → option Response := λ _, None.

(** A runtime whose current cache holds [response_200] for
    [https://example.com/page], next to a cache of an older
    generation. *)
Definition stocked_runtime : Runtime :=
  {| caches :=
       [(js "auto-offline-v0",
          {[ identity (GET (js "https://example.com/old")) := response_404 ]});
        (ServiceWorker.CACHE_NAME,
          {[ identity (GET (js "https://example.com/page")) := response_200 ]})];
     now := 1700000000000; claimed := false; skippedWaiting := false;
     trace := [] |}.

End Examples.

(** ** make-offline.js: the helper of the injected block

    The script of the block installs [window.offlineHelper] and calls
    its [init] when the document is ready. The page is modelled by the
    members of the helper, the two banners, the listeners that are in
    place, and what the helper did to the outside (messages posted to
    a waiting worker, the reload, the console). *)

Module OfflineHelper.

Record Page := {
  (** ['serviceWorker' in navigator] *)
  supported : bool;
  (** [this.isOnline] *)
  isOnline : bool;
  (** [this.serviceWorker] is a registration, not [null] *)
  serviceWorker : bool;
  (** the element [offline-banner] has the class [show] *)
  offline_banner_show : bool;
  (** the element [update-banner] has the class [show] *)
  update_banner_show : bool;
  (** the listener for [DOMContentLoaded] is waiting *)
  awaiting_DOMContentLoaded : bool;
  (** the listeners of [setupEventListeners] are in place *)
  listening : bool;
  (** the promise of [register('/sw.js')] is pending *)
  registering : bool;
  (** [type] of the messages posted to the waiting worker *)
  posted : list jsstring;
  (** [window.location.reload()] was called *)
  reloaded : bool;
  (** first argument of the calls of [console.log] *)
  console : list jsstring
}.

Definition set_isOnline (b : bool) (p : Page) : Page :=
  {| supported := supported p; isOnline := b;
     serviceWorker := serviceWorker p;
     offline_banner_show := offline_banner_show p;
     update_banner_show := update_banner_show p;
     awaiting_DOMContentLoaded := awaiting_DOMContentLoaded p;
     listening := listening p; registering := registering p;
     posted := posted p; reloaded := reloaded p; console := console p |}.

Definition set_serviceWorker (b : bool) (p : Page) : Page :=
  {| supported := supported p; isOnline := isOnline p;
     serviceWorker := b;
     offline_banner_show := offline_banner_show p;
     update_banner_show := update_banner_show p;
     awaiting_DOMContentLoaded := awaiting_DOMContentLoaded p;
     listening := listening p; registering := registering p;
     posted := posted p; reloaded := reloaded p; console := console p |}.

Definition set_offline_banner_show (b : bool) (p : Page) : Page :=
  {| supported := supported p; isOnline := isOnline p;
     serviceWorker := serviceWorker p;
     offline_banner_show := b;
     update_banner_show := update_banner_show p;
     awaiting_DOMContentLoaded := awaiting_DOMContentLoaded p;
     listening := listening p; registering := registering p;
     posted := posted p; reloaded := reloaded p; console := console p |}.

Definition set_update_banner_show (b : bool) (p : Page) : Page :=
  {| supported := supported p; isOnline := isOnline p;
     serviceWorker := serviceWorker p;
     offline_banner_show := offline_banner_show p;
     update_banner_show := b;
     awaiting_DOMContentLoaded := awaiting_DOMContentLoaded p;
     listening := listening p; registering := registering p;
     posted := posted p; reloaded := reloaded p; console := console p |}.

Definition set_awaiting_DOMContentLoaded (b : bool) (p : Page) : Page :=
  {| supported := supported p; isOnline := isOnline p;
     serviceWorker := serviceWorker p;
     offline_banner_show := offline_banner_show p;
     update_banner_show := update_banner_show p;
     awaiting_DOMContentLoaded := b;
     listening := listening p; registering := registering p;
     posted := posted p; reloaded := reloaded p; console := console p |}.

Definition set_listening (b : bool) (p : Page) : Page :=
  {| supported := supported p; isOnline := isOnline p;
     serviceWorker := serviceWorker p;
     offline_banner_show := offline_banner_show p;
     update_banner_show := update_banner_show p;
     awaiting_DOMContentLoaded := awaiting_DOMContentLoaded p;
     listening := b; registering := registering p;
     posted := posted p; reloaded := reloaded p; console := console p |}.

Definition set_registering (b : bool) (p : Page) : Page :=
  {| supported := supported p; isOnline := isOnline p;
     serviceWorker := serviceWorker p;
     offline_banner_show := offline_banner_show p;
     update_banner_show := update_banner_show p;
     awaiting_DOMContentLoaded := awaiting_DOMContentLoaded p;
     listening := listening p; registering := b;
     posted := posted p; reloaded := reloaded p; console := console p |}.

Definition post_and_reload (type : jsstring) (p : Page) : Page :=
  {| supported := supported p; isOnline := isOnline p;
     serviceWorker := serviceWorker p;
     offline_banner_show := offline_banner_show p;
     update_banner_show := update_banner_show p;
     awaiting_DOMContentLoaded := awaiting_DOMContentLoaded p;
     listening := listening p; registering := registering p;
     posted := posted p ++ [type]; reloaded := true;
     console := console p |}.

Definition console_log (first : jsstring) (p : Page) : Page :=
  {| supported := supported p; isOnline := isOnline p;
     serviceWorker := serviceWorker p;
     offline_banner_show := offline_banner_show p;
     update_banner_show := update_banner_show p;
     awaiting_DOMContentLoaded := awaiting_DOMContentLoaded p;
     listening := listening p; registering := registering p;
     posted := posted p; reloaded := reloaded p;
     console := console p ++ [first] |}.

(** [updateStatus()] *)
Definition updateStatus (p : Page) : Page :=
  if isOnline p then set_offline_banner_show false p
  else set_offline_banner_show true p.

(** [showUpdateBanner()] *)
Definition showUpdateBanner (p : Page) : Page :=
  set_update_banner_show true p.

(** [registerServiceWorker()] up to its [await]: the registration is
    asked for when the platform has service workers. *)
Definition registerServiceWorker (p : Page) : Page :=
  if supported p then set_registering true p else p.

(** [setupEventListeners()] *)
Definition setupEventListeners (p : Page) : Page :=
  set_listening true p.

(** [init()] *)
Definition init (p : Page) : Page :=
  setupEventListeners (registerServiceWorker (updateStatus p)).

(** [updateApp()]; [waiting] is whether the registration has a waiting
    worker at the time of the call. *)
Definition updateApp (waiting : bool) (p : Page) : Page :=
  if serviceWorker p && waiting then post_and_reload (js "SKIP_WAITING") p
  else p.

(** The script of the block runs: the helper is made from
    [navigator.onLine], the banners are as the markup has them, and
    [init] is called at once or left to [DOMContentLoaded], by
    [document.readyState]. *)
Definition load (supported onLine loading : bool) : Page :=
  let p :=
    {| supported := supported; isOnline := onLine; serviceWorker := false;
       offline_banner_show := false; update_banner_show := false;
       awaiting_DOMContentLoaded := loading; listening := false;
       registering := false; posted := []; reloaded := false;
       console := [] |} in
  if loading then p else init p.

(** What happens to the page afterwards. [Message t] is a message
    from the worker whose [data.type] is [t]; [StateChange state
    controller] is a change of state of a worker found by an update of
    the registration, with whether a worker controls the page;
    [UpdateClick waiting] is a click on the button of the update
    banner. *)
Inductive Event :=
| DOMContentLoaded
| Online
| Offline
| Message (type : option jsstring)
| RegisterResolved
| RegisterRejected
| StateChange (state : jsstring) (controller : bool)
| UpdateClick (waiting : bool).

(** One event; a page that is reloading handles no more. *)
Definition handle (p : Page) (e : Event) : Page :=
  if reloaded p then p
  else
    match e with
    | DOMContentLoaded =>
        if awaiting_DOMContentLoaded p
        then init (set_awaiting_DOMContentLoaded false p)
        else p
    | Online =>
        if listening p then updateStatus (set_isOnline true p) else p
    | Offline =>
        if listening p then updateStatus (set_isOnline false p) else p
    | Message type =>
        if listening p && supported p then
          if decide (type = Some (js "CACHE_UPDATED"))
          then showUpdateBanner p else p
        else p
    | RegisterResolved =>
        if registering p
        then set_serviceWorker true (set_registering false p)
        else p
    | RegisterRejected =>
        if registering p
        then console_log (js "SW registration failed:")
               (set_registering false p)
        else p
    | StateChange state controller =>
        if serviceWorker p then
          if bool_decide (state = js "installed") && controller
          then showUpdateBanner p else p
        else p
    | UpdateClick waiting => updateApp waiting p
    end.

Definition run (p : Page) (events : list Event) : Page :=
  foldl handle p events.

End OfflineHelper.

(** ** example.js: the router *)

Module ExampleWorker.
Import Builtins.

Definition html : jsstring :=
  template [
    [];
    js "<!DOCTYPE html>";
    js "<html>";
    js "<head><title>My App</title></head>";
    js "<body>";
    js "    <h1>Welcome!</h1>";
    js "    <p>This automatically works offline!</p>";
    js "    <button onclick=" ++ DQUOTE ++ js "fetch('/api/test').then(r=>r.json()).then(console.log)" ++ DQUOTE ++ js ">";
    js "        Test API";
    js "    </button>";
    js "</body>";
    js "</html>";
    js "      "
  ].

(** A JSON value of the kinds the router serializes. *)
Inductive JSONValue :=
| JSONString (s : jsstring)
| JSONNumber (n : Z).

(** An integer as [JSON.stringify] writes it: in decimal, with a
    minus sign when negative (the clock is far below the magnitude at
    which an exponent appears). *)
Fixpoint decimal_digits (d : Decimal.uint) : jsstring :=
  match d with
  | Decimal.Nil => []
  | Decimal.D0 d => 0x30 :: decimal_digits d
  | Decimal.D1 d => 0x31 :: decimal_digits d
  | Decimal.D2 d => 0x32 :: decimal_digits d
  | Decimal.D3 d => 0x33 :: decimal_digits d
  | Decimal.D4 d => 0x34 :: decimal_digits d
  | Decimal.D5 d => 0x35 :: decimal_digits d
  | Decimal.D6 d => 0x36 :: decimal_digits d
  | Decimal.D7 d => 0x37 :: decimal_digits d
  | Decimal.D8 d => 0x38 :: decimal_digits d
  | Decimal.D9 d => 0x39 :: decimal_digits d
  end.

Definition Number_toString (n : Z) : jsstring :=
  match Z.to_int n with
  | Decimal.Pos d => decimal_digits d
  | Decimal.Neg d => 0x2D :: decimal_digits d
  end.

Definition JSON_value (v : JSONValue) : jsstring :=
  match v with
  | JSONString s => QuoteJSONString s
  | JSONNumber n => Number_toString n
  end.

Fixpoint JSON_object_members (props : list (jsstring * JSONValue)) : jsstring :=
  match props with
  | [] => []
  | [(k, v)] => QuoteJSONString k ++ js ":" ++ JSON_value v
  | (k, v) :: props' =>
      QuoteJSONString k ++ js ":" ++ JSON_value v ++ js ","
        ++ JSON_object_members props'
  end.

(** [Response.json(data)] for an object [data] with the own
    properties [props]: status 200 and the content type of JSON. *)
Definition Response_json (props : list (jsstring * JSONValue)) : Response :=
  {| status := 200;
     statusText := [];
     headers := [(js "content-type", js "application/json")];
     body := js "{" ++ JSON_object_members props ++ js "}" |}.

(** [fetch(request)]; [now] is the clock read by [Date.now()]. *)
Definition fetch (now : Z) (request : Request) : Response :=
  let pathname := URL_pathname (url request) in
  if decide (pathname = js "/sw.js") then
    new_Response (generateServiceWorker ())
      {| init_headers :=
           [(js "Content-Type", js "application/javascript");
            (js "Cache-Control", js "no-cache")];
         init_status := None;
         init_statusText := None |}
  else if decide (pathname = js "/") then
    new_Response (makeOffline html)
      {| init_headers := [(js "Content-Type", js "text/html;charset=utf8")];
         init_status := None;
         init_statusText := None |}
  else if decide (pathname = js "/api/test") then
    Response_json
      [(js "message", JSONString (js "Hello!")); (js "time", JSONNumber now)]
  else
    new_Response (js "Not Found")
      {| init_status := Some 404;
         init_statusText := None;
         init_headers := [] |}.

End ExampleWorker.

(** The network as the router answers it. *)
Definition served_by_router (now : Z) : Request → option Response :=
  λ request, Some (ExampleWorker.fetch now request).

(** The caches are all of the current generation. *)
Definition only_current_generation (rt : Runtime) : Prop :=
  Forall (λ e, e.1 = ServiceWorker.CACHE_NAME) (caches rt).

(** The events of the worker, as the runtime hands them to the
    listeners the script registers. *)
Inductive WorkerEvent :=
| InstallEvent
| ActivateEvent
| FetchEvent (net : Request → option Response) (request : Request)
| MessageEvent (data_type : option jsstring).

Definition dispatch (rt : Runtime) (e : WorkerEvent) : Runtime :=
  match e with
  | InstallEvent => (ServiceWorker.install rt).2
  | ActivateEvent => (ServiceWorker.activate rt).2
  | FetchEvent net request => (ServiceWorker.fetch_handler net request rt).2
  | MessageEvent data_type => (ServiceWorker.message data_type rt).2
  end.

Definition dispatch_all (rt : Runtime) (events : list WorkerEvent) : Runtime :=
  foldl dispatch rt events.

(** * Properties *)

(** ** Strings *)

Section JsStringFacts.
Import JsString.
Implicit Types s p x y : jsstring.

Lemma startsWith_take s p :
  startsWith s p = true ↔ take (length p) s = p.
Proof.
  revert s. induction p as [|c p IH]; intros [|d s]; simpl; try done.
  rewrite andb_true_iff, N.eqb_eq, IH. split.
  - intros [-> ->]. done.
  - intros [= -> ->]. done.
Qed.

Lemma startsWith_app p t : startsWith (p ++ t) p = true.
Proof. apply startsWith_take. by rewrite take_app_length. Qed.

Lemma startsWith_false_take s p :
  startsWith s p = false ↔ take (length p) s ≠ p.
Proof.
  rewrite <- startsWith_take. by destruct (startsWith s p).
Qed.

Lemma StringIndexOf_unfold s p :
  StringIndexOf s p =
    if startsWith s p then Some 0%nat
    else match s with
         | [] => None
         | _ :: s' => S <$> StringIndexOf s' p
         end.
Proof. by destruct s. Qed.

(** The index found is an occurrence, and the first one. *)
Lemma StringIndexOf_Some s p i :
  StringIndexOf s p = Some i →
  (i ≤ length s)%nat
  ∧ startsWith (drop i s) p = true
  ∧ ∀ j, (j < i)%nat → startsWith (drop j s) p = false.
Proof.
  revert i.
  induction s as [|c s IH]; intros i; rewrite StringIndexOf_unfold.
  - destruct (startsWith [] p) eqn:E; [|done].
    intros [= <-]. split_and!; [simpl; lia|done|lia].
  - destruct (startsWith (c :: s) p) eqn:E.
    + intros [= <-]. split_and!; [simpl; lia|done|lia].
    + destruct (StringIndexOf s p) as [i'|] eqn:E'; [|done].
      intros [= <-]. destruct (IH i' eq_refl) as (Hle & Hocc & Hfirst).
      split_and!; [simpl; lia|done|].
      intros [|j] Hj; [done|]. apply Hfirst. lia.
Qed.

Lemma StringIndexOf_None s p :
  StringIndexOf s p = None → ∀ j, startsWith (drop j s) p = false.
Proof.
  induction s as [|c s IH]; rewrite StringIndexOf_unfold.
  - destruct (startsWith [] p) eqn:E; [done|].
    intros _ j. by rewrite drop_nil.
  - destruct (startsWith (c :: s) p) eqn:E; [done|].
    destruct (StringIndexOf s p) eqn:E'; [done|].
    intros _ [|j]; [done|]. by apply IH.
Qed.

Lemma StringIndexOf_first s p i :
  (i ≤ length s)%nat →
  startsWith (drop i s) p = true →
  (∀ j, (j < i)%nat → startsWith (drop j s) p = false) →
  StringIndexOf s p = Some i.
Proof.
  revert i.
  induction s as [|c s IH]; intros i Hle Hocc Hfirst;
    rewrite StringIndexOf_unfold.
  - simpl in Hle. assert (i = 0)%nat as -> by lia.
    change (drop 0 []) with (@nil N) in Hocc. by rewrite Hocc.
  - destruct i as [|i].
    + change (drop 0 (c :: s)) with (c :: s) in Hocc. by rewrite Hocc.
    + pose proof (Hfirst 0%nat ltac:(lia)) as H0.
      change (drop 0 (c :: s)) with (c :: s) in H0. rewrite H0.
      rewrite (IH i); [done|simpl in Hle; lia|done|].
      intros j Hj. apply (Hfirst (S j)). lia.
Qed.

Lemma includes_true s p :
  includes s p = true ↔ ∃ i, StringIndexOf s p = Some i.
Proof.
  unfold includes. destruct (StringIndexOf s p) as [i|]; split; try done.
  - by exists i.
  - by intros [? ?].
Qed.

Lemma includes_false s p :
  includes s p = false ↔ StringIndexOf s p = None.
Proof. unfold includes. by destruct (StringIndexOf s p). Qed.

(** [includes] is containment anywhere in the string. *)
Lemma includes_app x p y : includes (x ++ p ++ y) p = true.
Proof.
  destruct (includes (x ++ p ++ y) p) eqn:E; [done|].
  apply includes_false in E.
  pose proof (StringIndexOf_None _ _ E (length x)) as H.
  rewrite drop_app_length, startsWith_app in H. done.
Qed.

Lemma includes_occurrence s p :
  includes s p = true ↔ ∃ x y, s = x ++ p ++ y.
Proof.
  split.
  - intros [i Hi]%includes_true.
    destruct (StringIndexOf_Some _ _ _ Hi) as (_ & Hocc & _).
    apply startsWith_take in Hocc.
    exists (take i s), (drop (length p) (drop i s)).
    rewrite <- Hocc at 1. by rewrite !take_drop.
  - intros (x & y & ->). apply includes_app.
Qed.

(** A replacement text without a dollar sign is taken literally. *)
Lemma GetSubstitution_literal matched str position t :
  0x24 ∉ t → GetSubstitution matched str position t = t.
Proof.
  induction t as [|c t IH]; [done|]. intros Hnot.
  apply not_elem_of_cons in Hnot as [Hc Ht]. simpl.
  destruct (N.eqb_spec c 0x24) as [->|_]; [done|]. by rewrite IH.
Qed.

(** The first occurrence splits the string. *)
Lemma StringIndexOf_split s p i :
  StringIndexOf s p = Some i →
  s = take i s ++ p ++ drop (i + length p) s ∧ length (take i s) = i.
Proof.
  intros (Hle & Hocc & _)%StringIndexOf_Some.
  apply startsWith_take in Hocc. split.
  - rewrite <- Hocc at 1. rewrite <- drop_drop, !take_drop. done.
  - rewrite length_take. lia.
Qed.

Lemma replace_literal s p r i :
  0x24 ∉ r →
  StringIndexOf s p = Some i →
  replace s p r = take i s ++ r ++ drop (i + length p) s.
Proof.
  intros Hr Hi. unfold replace. rewrite Hi.
  by rewrite GetSubstitution_literal.
Qed.

(** An occurrence in [x ++ y] that ends inside [x] is one in [x]
    followed by anything else. *)
Lemma startsWith_drop_app_l x y y' p j :
  (j + length p ≤ length x)%nat →
  startsWith (drop j (x ++ y)) p = startsWith (drop j (x ++ y')) p.
Proof.
  intros Hj.
  assert (∀ z, take (length p) (drop j (x ++ z)) = take (length p) (drop j x))
    as Hz.
  { intros z. rewrite drop_app_le by lia.
    rewrite take_app_le; [done|]. rewrite length_drop. lia. }
  destruct (startsWith (drop j (x ++ y)) p) eqn:E; symmetry.
  - apply startsWith_take. apply startsWith_take in E.
    by rewrite Hz in *.
  - apply startsWith_false_take. apply startsWith_false_take in E.
    by rewrite Hz in *.
Qed.

(** A code unit under an occurrence belongs to the text that
    occurs. *)
Lemma startsWith_covers s p j k c :
  startsWith (drop j s) p = true →
  (j ≤ k < j + length p)%nat →
  s !! k = Some c →
  c ∈ p.
Proof.
  intros Hocc%startsWith_take Hk Hc.
  apply list_elem_of_lookup. exists (k - j)%nat.
  rewrite <- Hocc. rewrite lookup_take_lt by lia.
  rewrite lookup_drop. replace (j + (k - j))%nat with k by lia. done.
Qed.

(** *** Counting occurrences *)

Lemma occurrences_unfold s p :
  occurrences s p =
    ((if startsWith s p then 1 else 0)
     + match s with [] => 0 | _ :: s' => occurrences s' p end)%nat.
Proof. by destruct s. Qed.

Lemma occurrences_app_r x s p :
  (occurrences s p ≤ occurrences (x ++ s) p)%nat.
Proof.
  induction x as [|c x IH]; [done|].
  rewrite (occurrences_unfold ((c :: x) ++ s)). simpl. lia.
Qed.

Lemma occurrences_startsWith s p :
  startsWith s p = true → (1 ≤ occurrences s p)%nat.
Proof. intros H. rewrite occurrences_unfold, H. lia. Qed.

Lemma occurrences_twice p y :
  p ≠ [] → (2 ≤ occurrences (p ++ p ++ y) p)%nat.
Proof.
  intros Hp. rewrite occurrences_unfold, startsWith_app.
  destruct p as [|c p']; [done|].
  change ((c :: p') ++ (c :: p') ++ y)
    with (c :: (p' ++ (c :: p') ++ y)).
  cbv beta iota.
  pose proof (occurrences_app_r p' ((c :: p') ++ y) (c :: p')) as H1.
  pose proof (occurrences_startsWith ((c :: p') ++ y) (c :: p')
                (startsWith_app _ _)) as H2.
  lia.
Qed.

Lemma occursAt_0 s p : occursAt s p 0 = startsWith s p.
Proof.
  unfold occursAt. rewrite bool_decide_eq_true_2 by lia. done.
Qed.

Lemma occursAt_S c s p i : occursAt (c :: s) p (S i) = occursAt s p i.
Proof.
  unfold occursAt. simpl. f_equal. apply bool_decide_ext. lia.
Qed.

Lemma occurrences_none s p :
  (∀ i, occursAt s p i = false) → occurrences s p = 0%nat.
Proof.
  induction s as [|c s IH]; intros H; rewrite occurrences_unfold.
  - specialize (H 0%nat). rewrite occursAt_0 in H. by rewrite H.
  - pose proof (H 0%nat) as H0. rewrite occursAt_0 in H0. rewrite H0.
    rewrite IH; [done|]. intros i. rewrite <- (occursAt_S c). apply H.
Qed.

(** One index of occurrence, one occurrence. *)
Lemma occurrences_unique s p k :
  (∀ i, occursAt s p i = true ↔ i = k) → occurrences s p = 1%nat.
Proof.
  revert k. induction s as [|c s IH]; intros k H;
    rewrite occurrences_unfold.
  - pose proof (proj2 (H k) eq_refl) as Hk.
    unfold occursAt in Hk. apply andb_true_iff in Hk as [Hle Hk].
    apply bool_decide_eq_true in Hle. simpl in Hle.
    assert (k = 0)%nat as -> by lia. rewrite drop_0 in Hk.
    by rewrite Hk.
  - destruct k as [|k].
    + pose proof (proj2 (H 0%nat) eq_refl) as H0.
      rewrite occursAt_0 in H0. rewrite H0.
      rewrite occurrences_none; [done|].
      intros i. rewrite <- (occursAt_S c).
      destruct (occursAt (c :: s) p (S i)) eqn:E; [|done].
      by apply H in E.
    + destruct (startsWith (c :: s) p) eqn:E.
      { rewrite <- occursAt_0 in E. by apply H in E. }
      rewrite (IH k); [done|].
      intros i. rewrite <- (occursAt_S c), H. lia.
Qed.

End JsStringFacts.

(** ** The injector *)

Section Injector.
Import JsString.
Implicit Types html pre post x y : jsstring.

Local Abbreviation block := offlineScripts.
Local Abbreviation marker := (js "</body>").
(** The comment that opens the block. *)
Local Abbreviation opening :=
  (js "<!-- Offline functionality injected by makeOffline() -->").

(** *** What the proofs use of the text of the block *)

Lemma block_length : length block = 4003%nat.
Proof. by vm_compute. Qed.

Lemma block_nonempty : block ≠ [].
Proof. intros H. apply (f_equal length) in H. by rewrite block_length in H. Qed.

Lemma block_first : block !! 0%nat = Some LF.
Proof. by vm_compute. Qed.

Lemma block_last : block !! 4002%nat = Some 0x20.
Proof. by vm_compute. Qed.

Lemma block_last_line_feed : block !! 4000%nat = Some LF.
Proof. by vm_compute. Qed.

Lemma block_last_but_one : block !! 4001%nat = Some 0x20.
Proof. by vm_compute. Qed.

Lemma block_without_marker : StringIndexOf block marker = None.
Proof. by vm_compute. Qed.

Lemma replacement_without_dollar : 0x24 ∉ block ++ marker.
Proof. apply (proj1 (bool_decide_eq_false _)). by vm_compute. Qed.

Lemma marker_without_line_feed : LF ∉ marker.
Proof. apply (proj1 (bool_decide_eq_false _)). by vm_compute. Qed.

Lemma marker_without_space : 0x20 ∉ marker.
Proof. apply (proj1 (bool_decide_eq_false _)). by vm_compute. Qed.

Lemma opening_without_line_feed : LF ∉ opening.
Proof. apply (proj1 (bool_decide_eq_false _)). by vm_compute. Qed.

Lemma opening_first : opening !! 0%nat = Some 0x3C.
Proof. by vm_compute. Qed.

Lemma opening_in_block : StringIndexOf block opening = Some 5%nat.
Proof. by vm_compute. Qed.

Lemma opening_once_in_block : StringIndexOf (drop 6 block) opening = None.
Proof. by vm_compute. Qed.

#[local] Opaque offlineScripts.

(** Case analysis on a decidable fact about indices. *)
Local Ltac cases_on P :=
  let d := fresh "d" in pose proof (decide P) as d; destruct d.

(** *** The two branches of [makeOffline] *)

Lemma makeOffline_appends html :
  includes html marker = false → makeOffline html = html ++ block.
Proof. intros H. unfold makeOffline. by rewrite H. Qed.

Lemma makeOffline_inserts html i :
  StringIndexOf html marker = Some i →
  makeOffline html
  = take i html ++ block ++ marker ++ drop (i + length marker) html.
Proof.
  intros Hi. unfold makeOffline.
  rewrite (proj2 (includes_true _ _)) by eauto.
  rewrite (replace_literal _ _ _ i replacement_without_dollar Hi).
  by rewrite <- (assoc_L (++) block).
Qed.

(** *** Where a marker can occur around an inserted block *)

Lemma lookup_block_in x y k :
  (k < 4003)%nat → (x ++ block ++ y) !! (length x + k)%nat = block !! k.
Proof.
  intros Hk. rewrite lookup_app_r by lia.
  replace (length x + k - length x)%nat with k by lia.
  apply lookup_app_l. rewrite block_length. lia.
Qed.

(** No marker begins before a block and runs into it. *)
Lemma marker_not_into_block x y j :
  (j < length x < j + length marker)%nat →
  startsWith (drop j (x ++ block ++ y)) marker = false.
Proof.
  intros Hj.
  destruct (startsWith (drop j (x ++ block ++ y)) marker) eqn:E; [|done].
  destruct marker_without_line_feed.
  apply (startsWith_covers _ _ _ (length x + 0) _ E); [lia|].
  rewrite lookup_block_in by lia. apply block_first.
Qed.

(** No marker begins inside a block. *)
Lemma marker_not_from_block x y j :
  (length x ≤ j < length x + length block)%nat →
  startsWith (drop j (x ++ block ++ y)) marker = false.
Proof.
  intros Hj. pose proof block_length as Hlen.
  cases_on (j + length marker ≤ length x + length block)%nat.
  - rewrite drop_app_ge by lia.
    rewrite (startsWith_drop_app_l block y []) by lia.
    rewrite app_nil_r.
    apply (StringIndexOf_None _ _ block_without_marker).
  - destruct (startsWith (drop j (x ++ block ++ y)) marker) eqn:E; [|done].
    destruct marker_without_space.
    apply (startsWith_covers _ _ _ (length x + 4002) _ E); [lia|].
    rewrite lookup_block_in by lia. apply block_last.
Qed.

Lemma appended_without_marker html :
  includes html marker = false →
  includes (html ++ block) marker = false.
Proof.
  intros Hno%includes_false.
  destruct (includes (html ++ block) marker) eqn:E; [|done].
  apply includes_true in E as [j Hj].
  apply StringIndexOf_Some in Hj as (Hle & Hocc & _).
  rewrite <- (app_nil_r block) in Hocc, Hle.
  rewrite !length_app in Hle. pose proof block_length. simpl in Hle.
  cases_on ((j + length marker ≤ length html)%nat).
  - rewrite (startsWith_drop_app_l html _ []) in Hocc by lia.
    rewrite app_nil_r in Hocc.
    by rewrite (StringIndexOf_None _ _ Hno) in Hocc.
  - cases_on ((j < length html)%nat).
    + rewrite marker_not_into_block in Hocc by lia. done.
    + cases_on ((j < length html + length block)%nat).
      * rewrite marker_not_from_block in Hocc by lia. done.
      * rewrite drop_ge in Hocc; [done|].
        rewrite !length_app. simpl. lia.
Qed.

(** After an insertion the first marker is still the one the block
    was put in front of. *)
Lemma inserted_first_marker pre post :
  (∀ j, (j < length pre)%nat →
        startsWith (drop j (pre ++ marker ++ post)) marker = false) →
  StringIndexOf (pre ++ block ++ marker ++ post) marker
  = Some (length pre + length block)%nat.
Proof.
  intros Hfirst. apply StringIndexOf_first.
  - rewrite !length_app. lia.
  - rewrite (assoc_L (++) pre block), <- length_app, drop_app_length.
    apply startsWith_app.
  - intros j Hj.
    cases_on ((j + length marker ≤ length pre)%nat).
    + rewrite (startsWith_drop_app_l pre _ (marker ++ post)) by lia.
      apply Hfirst. simpl in *. lia.
    + cases_on ((j < length pre)%nat).
      * apply marker_not_into_block. lia.
      * apply marker_not_from_block. lia.
Qed.

Lemma take_inserted pre post :
  take (length pre + length block) (pre ++ block ++ marker ++ post)
  = pre ++ block.
Proof.
  rewrite (assoc_L (++) pre block), <- length_app. apply take_app_length.
Qed.

Lemma drop_inserted pre post :
  drop (length pre + length block + length marker)
       (pre ++ block ++ marker ++ post)
  = post.
Proof.
  replace (pre ++ block ++ marker ++ post)
    with ((pre ++ block ++ marker) ++ post)
    by (by rewrite <- !(assoc_L (++))).
  replace (length pre + length block + length marker)%nat
    with (length (pre ++ block ++ marker))
    by (rewrite !length_app; lia).
  apply drop_app_length.
Qed.

(** The shape of the result in both branches, and of a second
    application. *)
Lemma makeOffline_shape html :
  ∃ x y,
    makeOffline html = x ++ block ++ y
    ∧ makeOffline (makeOffline html) = x ++ block ++ block ++ y.
Proof.
  destruct (includes html marker) eqn:E.
  - apply includes_true in E as [i Hi].
    pose proof (StringIndexOf_Some _ _ _ Hi) as (Hle & _ & Hfirst).
    pose proof (StringIndexOf_split _ _ _ Hi) as [Hsplit Hlen].
    set (pre := take i html) in *.
    set (post := drop (i + length marker) html) in *.
    exists pre, (marker ++ post). split.
    + by apply makeOffline_inserts.
    + rewrite (makeOffline_inserts html i Hi). fold pre post.
      assert (StringIndexOf (pre ++ block ++ marker ++ post) marker
              = Some (length pre + length block)%nat) as Hi2.
      { apply inserted_first_marker. intros j Hj.
        rewrite <- Hsplit. apply Hfirst. lia. }
      rewrite (makeOffline_inserts _ _ Hi2).
      rewrite take_inserted, drop_inserted.
      by rewrite <- (assoc_L (++)).
  - exists html, []. rewrite app_nil_r.
    rewrite (makeOffline_appends _ E). split; [done|].
    rewrite makeOffline_appends by by apply appended_without_marker.
    by rewrite <- (assoc_L (++)).
Qed.

(** *** Where a block can occur after an insertion *)

(** An occurrence of [q] inside an occurrence of [p]. *)
Lemma startsWith_inside s p q i k :
  startsWith (drop i s) p = true →
  startsWith (drop k p) q = true →
  (k + length q ≤ length p)%nat →
  startsWith (drop (i + k) s) q = true.
Proof.
  intros Hp%startsWith_take Hq Hk.
  rewrite <- drop_drop, <- (take_drop (length p) (drop i s)), Hp.
  rewrite (startsWith_drop_app_l p _ []) by lia.
  by rewrite app_nil_r.
Qed.

Lemma opening_only_at_5 j :
  startsWith (drop j block) opening = true → j = 5%nat.
Proof.
  intros Hj.
  destruct (StringIndexOf_Some _ _ _ opening_in_block) as (_ & _ & Hfirst).
  cases_on ((j < 5)%nat); [by rewrite Hfirst in Hj|].
  cases_on ((j = 5)%nat); [done|].
  replace j with (6 + (j - 6))%nat in Hj by lia.
  rewrite <- drop_drop in Hj.
  by rewrite (StringIndexOf_None _ _ opening_once_in_block) in Hj.
Qed.

(** In a document without the opening comment, the comment occurs
    after the insertion only where the inserted block has it. *)
Lemma opening_after_insertion pre post j :
  includes (pre ++ marker ++ post) opening = false →
  startsWith (drop j (pre ++ block ++ marker ++ post)) opening = true →
  j = (length pre + 5)%nat.
Proof.
  intros Hno%includes_false Hj. pose proof block_length as Hlen.
  pose proof (StringIndexOf_None _ _ Hno) as Hnone.
  assert (length opening = 56%nat) as Hop by by vm_compute.
  cases_on ((j + length opening ≤ length pre)%nat).
  { rewrite (startsWith_drop_app_l pre _ (marker ++ post)) in Hj by lia.
    by rewrite Hnone in Hj. }
  cases_on ((j < length pre)%nat).
  { destruct opening_without_line_feed.
    apply (startsWith_covers _ _ _ (length pre + 0) _ Hj); [lia|].
    rewrite lookup_block_in by lia. apply block_first. }
  cases_on ((length pre + 4003 ≤ j)%nat).
  { specialize (Hnone (j - 4003)%nat).
    rewrite drop_app_ge in Hnone by lia.
    rewrite (assoc_L (++) pre block), drop_app_ge in Hj
      by (rewrite length_app; lia).
    rewrite length_app, Hlen in Hj.
    replace (j - 4003 - length pre)%nat with (j - (length pre + 4003))%nat
      in Hnone by lia.
    by rewrite Hnone in Hj. }
  cases_on ((j + length opening ≤ length pre + 4003)%nat).
  { rewrite drop_app_ge in Hj by lia.
    rewrite (startsWith_drop_app_l block _ []) in Hj by lia.
    rewrite app_nil_r in Hj. apply opening_only_at_5 in Hj. lia. }
  cases_on ((j ≤ length pre + 4000)%nat).
  { destruct opening_without_line_feed.
    apply (startsWith_covers _ _ _ (length pre + 4000) _ Hj); [lia|].
    rewrite lookup_block_in by lia. apply block_last_line_feed. }
  assert (0x3C ∈ [0x20]) as Habs; [|by apply list_elem_of_singleton in Habs].
  assert ((pre ++ block ++ marker ++ post) !! j = Some 0x3C) as Hfirst.
  { apply startsWith_take in Hj. rewrite <- opening_first, <- Hj.
    rewrite lookup_take_lt by lia. rewrite lookup_drop. f_equal. lia. }
  assert ((pre ++ block ++ marker ++ post) !! j = Some 0x20) as Hspace.
  { replace j with (length pre + (j - length pre))%nat by lia.
    rewrite lookup_block_in by lia.
    cases_on (j - length pre = 4001)%nat.
    - replace (j - length pre)%nat with 4001%nat by lia.
      apply block_last_but_one.
    - replace (j - length pre)%nat with 4002%nat by lia.
      apply block_last. }
  rewrite Hfirst in Hspace. injection Hspace as ->. by left.
Qed.

Lemma block_after_insertion pre post i :
  includes (pre ++ marker ++ post) opening = false →
  occursAt (pre ++ block ++ marker ++ post) block i = true
  ↔ i = length pre.
Proof.
  intros Hno. unfold occursAt. rewrite andb_true_iff, bool_decide_eq_true.
  split.
  - intros [_ Hi].
    assert (startsWith (drop 5 block) opening = true) as Hop
      by apply (StringIndexOf_Some _ _ _ opening_in_block).
    pose proof (startsWith_inside _ _ _ i 5 Hi Hop) as Hj.
    rewrite block_length in Hj. specialize (Hj ltac:(vm_compute; lia)).
    apply (opening_after_insertion _ _ _ Hno) in Hj. lia.
  - intros ->. split; [rewrite length_app; lia|].
    rewrite drop_app_length. apply startsWith_app.
Qed.

End Injector.

(** Claim C7. A document without the closing body marker comes back
    with the block appended at its end: the result is the document
    followed by the block, so the document itself is the unaltered
    front of the result. *)
Theorem makeOffline_appends_without_closing_body (html : jsstring) :
  JsString.includes html (js "</body>") = false →
  makeOffline html = html ++ offlineScripts
  ∧ take (length html) (makeOffline html) = html
  ∧ drop (length html) (makeOffline html) = offlineScripts.
Proof.
  intros H. rewrite (makeOffline_appends _ H).
  by rewrite take_app_length, drop_app_length.
Qed.

Lemma makeOffline_appends_without_closing_body_witness :
  JsString.includes (js "<p>hello</p>") (js "</body>") = false
  ∧ makeOffline (js "<p>hello</p>") = js "<p>hello</p>" ++ offlineScripts
  ∧ take (length (js "<p>hello</p>")) (makeOffline (js "<p>hello</p>"))
    = js "<p>hello</p>"
  ∧ drop (length (js "<p>hello</p>")) (makeOffline (js "<p>hello</p>"))
    = offlineScripts.
Proof.
  split; [by vm_compute|].
  apply (makeOffline_appends_without_closing_body (js "<p>hello</p>")).
  by vm_compute.
Defined.

(** Claim C6, as amended. For a document that contains the closing
    body marker, the result is the document with one copy of the block
    inserted immediately before the first occurrence of the marker and
    everything else as it was. The inserted copy is the only instance
    of the block in the result when the document does not already
    contain the comment that opens the block. *)
Theorem makeOffline_inserts_before_first_closing_body (html : jsstring) :
  JsString.includes html (js "</body>") = true →
  ∃ pre post,
    html = pre ++ js "</body>" ++ post
    ∧ (∀ j, (j < length pre)%nat →
            JsString.occursAt html (js "</body>") j = false)
    ∧ makeOffline html = pre ++ offlineScripts ++ js "</body>" ++ post
    ∧ (JsString.includes html
         (js "<!-- Offline functionality injected by makeOffline() -->")
       = false →
       (∀ i, JsString.occursAt (makeOffline html) offlineScripts i = true
             ↔ i = length pre)
       ∧ JsString.occurrences (makeOffline html) offlineScripts = 1%nat).
Proof.
  intros [i Hi]%includes_true.
  pose proof (StringIndexOf_Some _ _ _ Hi) as (Hle & _ & Hfirst).
  pose proof (StringIndexOf_split _ _ _ Hi) as [Hsplit Hlen].
  pose proof (makeOffline_inserts _ _ Hi) as Hout.
  set (pre := take i html) in *.
  set (post := drop (i + length (js "</body>")) html) in *.
  exists pre, post. split_and!; [done| |done|].
  - intros j Hj. unfold JsString.occursAt.
    rewrite Hfirst by lia. apply andb_false_r.
  - intros Hno. rewrite Hout. rewrite Hsplit in Hno.
    pose proof (λ i, block_after_insertion pre post i Hno) as Honly.
    split; [done|]. by apply (occurrences_unique _ _ (length pre)).
Qed.

Lemma makeOffline_inserts_before_first_closing_body_witness :
  JsString.includes (js "<body><p>hello</p></body>") (js "</body>") = true
  ∧ ∃ pre post,
      js "<body><p>hello</p></body>" = pre ++ js "</body>" ++ post
      ∧ (∀ j, (j < length pre)%nat →
              JsString.occursAt (js "<body><p>hello</p></body>")
                (js "</body>") j = false)
      ∧ makeOffline (js "<body><p>hello</p></body>")
        = pre ++ offlineScripts ++ js "</body>" ++ post
      ∧ (JsString.includes (js "<body><p>hello</p></body>")
           (js "<!-- Offline functionality injected by makeOffline() -->")
         = false →
         (∀ i, JsString.occursAt (makeOffline (js "<body><p>hello</p></body>"))
                 offlineScripts i = true
               ↔ i = length pre)
         ∧ JsString.occurrences (makeOffline (js "<body><p>hello</p></body>"))
             offlineScripts = 1%nat).
Proof.
  split; [by vm_compute|].
  apply (makeOffline_inserts_before_first_closing_body
           (js "<body><p>hello</p></body>")).
  by vm_compute.
Defined.

(** Claim C6, as stated, fails: a document that already carries the
    block and has the closing body marker (here a document that went
    through the injector once) comes back with two instances of the
    block, not exactly one. *)
Lemma makeOffline_two_blocks_counterexample :
  JsString.includes (makeOffline (js "<body></body>")) (js "</body>") = true
  ∧ JsString.occurrences
      (makeOffline (makeOffline (js "<body></body>"))) offlineScripts
    = 2%nat
  ∧ JsString.occursAt
      (makeOffline (makeOffline (js "<body></body>"))) offlineScripts 6
    = true
  ∧ JsString.occursAt
      (makeOffline (makeOffline (js "<body></body>"))) offlineScripts 4009
    = true.
Proof. by vm_compute. Qed.

(** Claim C10. The injector is not idempotent: whatever the document,
    a second application puts a second copy of the block directly
    after the first, so the result holds (at least) two instances of
    the block and differs from the result of one application. *)
Theorem makeOffline_not_idempotent (html : jsstring) :
  makeOffline (makeOffline html) ≠ makeOffline html
  ∧ (2 ≤ JsString.occurrences (makeOffline (makeOffline html)) offlineScripts)%nat
  ∧ ∃ x y,
      makeOffline html = x ++ offlineScripts ++ y
      ∧ makeOffline (makeOffline html)
        = x ++ offlineScripts ++ offlineScripts ++ y.
Proof.
  destruct (makeOffline_shape html) as (x & y & H1 & H2).
  split_and!.
  - rewrite H2, H1. intros H%(f_equal length).
    rewrite !length_app, block_length in H. lia.
  - rewrite H2. etrans; [|apply occurrences_app_r].
    apply occurrences_twice, block_nonempty.
  - by exists x, y.
Qed.

(** ** The cache storage *)

Section StorageFacts.
Implicit Types cs : list (jsstring * gmap (jsstring * jsstring) Response).
Implicit Types name : jsstring.

Lemma get_elem_of name cs cache :
  Storage.get name cs = Some cache → (name, cache) ∈ cs.
Proof.
  induction cs as [|[n c] cs IH]; simpl; [done|].
  case_decide as Hn.
  - intros [= ->]. subst. by left.
  - intros H. right. by apply IH.
Qed.

Lemma get_app_None name cs cs' :
  Storage.get name cs = None →
  Storage.get name (cs ++ cs') = Storage.get name cs'.
Proof.
  induction cs as [|[n c] cs IH]; simpl; [done|].
  by case_decide.
Qed.

Lemma get_app_Some name cs cs' cache :
  Storage.get name cs = Some cache →
  Storage.get name (cs ++ cs') = Some cache.
Proof.
  induction cs as [|[n c] cs IH]; simpl; [done|].
  by case_decide.
Qed.

(** Opening creates an empty cache of that name when there is none,
    and touches no other. *)
Lemma get_open name cs :
  Storage.get name (Storage.open name cs)
  = Some (default ∅ (Storage.get name cs)).
Proof.
  unfold Storage.open. destruct (Storage.get name cs) as [c|] eqn:E.
  - by rewrite E.
  - rewrite (get_app_None _ _ _ E). simpl. by rewrite decide_True.
Qed.

Lemma get_open_ne name name' cs :
  name' ≠ name →
  Storage.get name' (Storage.open name cs) = Storage.get name' cs.
Proof.
  intros Hne. unfold Storage.open.
  destruct (Storage.get name cs) eqn:E; [done|].
  destruct (Storage.get name' cs) as [c'|] eqn:E'.
  - by apply get_app_Some.
  - rewrite (get_app_None _ _ _ E'). simpl. by rewrite decide_False.
Qed.

(** A put overwrites the entry of the request in the named cache and
    leaves the other entries and the other caches alone. *)
Lemma get_put name request response cs :
  Storage.get name (Storage.put name request response cs)
  = <[identity request := response]> <$> Storage.get name cs.
Proof.
  induction cs as [|[n c] cs IH]; simpl; [done|].
  case_decide as Hn; simpl.
  - by rewrite decide_True.
  - by rewrite decide_False.
Qed.

Lemma get_put_ne name name' request response cs :
  name' ≠ name →
  Storage.get name' (Storage.put name request response cs)
  = Storage.get name' cs.
Proof.
  intros Hne. induction cs as [|[n c] cs IH]; simpl; [done|].
  case_decide as Hn; simpl.
  - subst. by rewrite !decide_False.
  - by rewrite IH.
Qed.



Lemma delete_filter name cs :
  Storage.delete name cs = filter (λ e, e.1 ≠ name) cs.
Proof.
  induction cs as [|[n c] cs IH]; simpl; [done|].
  case_decide as Hn.
  - rewrite filter_cons_False by (simpl; tauto). done.
  - rewrite filter_cons_True by done. by rewrite IH.
Qed.

End StorageFacts.

(** ** The built-ins *)

Section BuiltinFacts.
Import Builtins.

Lemma clone_same response : clone response = response.
Proof. by destruct response. Qed.

Lemma is_digit_digit n : is_digit (digit n) = true.
Proof.
  unfold is_digit, digit.
  assert (0 ≤ n mod 10 < 10)%Z as Hn by (apply Z.mod_pos_bound; lia).
  apply andb_true_iff. rewrite !N.leb_le. lia.
Qed.

Lemma digits_2 n : digits 2 n = [digit (n / 10); digit n].
Proof. done. Qed.

Lemma digits_3 n : digits 3 n = [digit (n / 10 / 10); digit (n / 10); digit n].
Proof. done. Qed.

Lemma digits_4 n :
  digits 4 n
  = [digit (n / 10 / 10 / 10); digit (n / 10 / 10); digit (n / 10); digit n].
Proof. done. Qed.

Lemma digits_6 n :
  digits 6 n
  = [digit (n / 10 / 10 / 10 / 10 / 10); digit (n / 10 / 10 / 10 / 10);
     digit (n / 10 / 10 / 10); digit (n / 10 / 10); digit (n / 10); digit n].
Proof. done. Qed.

Example toISOString_epoch :
  toISOString 0 = js "1970-01-01T00:00:00.000Z".
Proof. by vm_compute. Qed.

Example toISOString_before_epoch :
  toISOString (-1) = js "1969-12-31T23:59:59.999Z".
Proof. by vm_compute. Qed.

Example toISOString_leap_day :
  toISOString 951782400000 = js "2000-02-29T00:00:00.000Z".
Proof. by vm_compute. Qed.

Example toISOString_five_digit_year :
  toISOString 253402300800000 = js "+010000-01-01T00:00:00.000Z".
Proof. by vm_compute. Qed.

Example JSON_stringify_one_member :
  JSON_stringify [(js "error", js "Offline")]
  = js "{" ++ DQUOTE ++ js "error" ++ DQUOTE ++ js ":"
      ++ DQUOTE ++ js "Offline" ++ DQUOTE ++ js "}".
Proof. by vm_compute. Qed.

Example URL_pathname_of_origin :
  URL_pathname (js "https://example.com") = js "/".
Proof. by vm_compute. Qed.

Example URL_pathname_with_query :
  URL_pathname (js "https://example.com:8080/api/test?x=1#top")
  = js "/api/test".
Proof. by vm_compute. Qed.

(** Whatever the time, [toISOString] has the ISO-8601 shape. *)
Lemma toISOString_shape t : is_ISO_8601 (toISOString t) = true.
Proof.
  unfold toISOString. destruct (civil_from_days _) as [[y m] d].
  rewrite !digits_2, digits_3.
  destruct ((0 <=? y)%Z && (y <=? 9999)%Z).
  - rewrite digits_4. cbn [app is_ISO_8601 is_ISO_8601_after_year js
      list_ascii_of_string map forallb].
    rewrite !is_digit_digit. by vm_compute.
  - rewrite digits_6. destruct (y <? 0)%Z;
      cbn [app is_ISO_8601 is_ISO_8601_after_year js
        list_ascii_of_string map forallb];
      rewrite !is_digit_digit; by vm_compute.
Qed.

End BuiltinFacts.

(** ** The handlers of the worker *)

Section HandlerFacts.
Import ServiceWorker Platform Builtins.
Implicit Types (net : Request → option Response) (rt : Runtime).
Implicit Types (request : Request) (response : Response).

Lemma calls_since_app rt rt' cs :
  trace rt' = trace rt ++ cs → calls_since rt rt' = cs.
Proof. intros H. unfold calls_since. by rewrite H, drop_app_length. Qed.

(** A request of another method: the handler returns at once. *)
Lemma fetch_handler_other_method net request rt :
  method request ≠ js "GET" →
  fetch_handler net request rt = (None, rt).
Proof. intros H. unfold fetch_handler. by rewrite decide_True. Qed.

(** The network answered. *)
Lemma fetch_handler_live net request response rt :
  method request = js "GET" →
  net request = Some response →
  fetch_handler net request rt
  = (Some response,
     if ok response && negb (JsString.includes (url request) (js "/sw.js"))
     then
       call (ConsoleLog [js "Cached:"; url request])
         (call (CachePut CACHE_NAME request response)
            (with_caches
               (Storage.put CACHE_NAME request response
                  (Storage.open CACHE_NAME (caches rt)))
               (call (CachesOpen CACHE_NAME) (call (Fetch request) rt))))
     else call (Fetch request) rt).
Proof.
  intros Hm Hnet. unfold fetch_handler.
  rewrite decide_False by (by intros []).
  unfold mbind, Worker_bind, fetch. rewrite Hnet.
  destruct (ok response
            && negb (JsString.includes (url request) (js "/sw.js")));
    [|done].
  by rewrite clone_same.
Qed.

(** The network failed. *)
Lemma fetch_handler_offline net request rt :
  method request = js "GET" →
  net request = None →
  fetch_handler net request rt
  = match Storage.match_ request (caches rt) with
    | Some cached =>
        (Some cached,
         call (ConsoleLog [js "Serving from cache:"; url request])
           (call (CachesMatch request) (call (Fetch request) rt)))
    | None =>
        (Some (if JsString.includes (url request) (js "/api/")
               then offline_api_response (now rt)
               else offline_response),
         call (CachesMatch request) (call (Fetch request) rt))
    end.
Proof.
  intros Hm Hnet. unfold fetch_handler.
  rewrite decide_False by (by intros []).
  unfold mbind, Worker_bind, fetch, caches_match. rewrite Hnet.
  cbn [caches call]. destruct (Storage.match_ request (caches rt)); [done|].
  by destruct (JsString.includes (url request) (js "/api/")).
Qed.

Lemma offline_api_response_eq t :
  offline_api_response t
  = {| status := 503;
       statusText := [];
       headers := [(js "content-type", js "application/json")];
       body :=
         JSON_stringify
           [(js "error", js "Offline");
            (js "message", js "No cached data available");
            (js "timestamp", toISOString t)] |}.
Proof. done. Qed.

Lemma offline_response_eq :
  offline_response
  = {| status := 503;
       statusText := js "Service Unavailable";
       headers := [(js "content-type", js "text/plain;charset=UTF-8")];
       body := js "Offline - No cached version available" |}.
Proof. done. Qed.

(** The deletions of the activation, one cache name after the
    other. *)
Lemma delete_old_caches_run cacheNames rt :
  delete_old_caches cacheNames rt
  = ((), {| caches :=
              filter (λ e, e.1 = CACHE_NAME ∨ e.1 ∉ cacheNames) (caches rt);
            now := now rt; claimed := claimed rt;
            skippedWaiting := skippedWaiting rt;
            trace := trace rt ++ deletion_calls cacheNames |}).
Proof.
  revert rt. induction cacheNames as [|n names IH]; intros rt.
  - simpl. unfold mret, Worker_ret. f_equal.
    rewrite app_nil_r. destruct rt as [cs ? ? ? ?]. simpl. f_equal.
    induction cs as [|e cs IHcs]; [done|].
    rewrite filter_cons_True; [by rewrite <- IHcs|].
    right. apply not_elem_of_nil.
  - cbn [delete_old_caches]. unfold mbind at 1. unfold Worker_bind at 1.
    case_decide as Hn.
    + unfold mbind at 1. unfold Worker_bind at 1.
      unfold console_log, caches_delete. rewrite IH.
      f_equal. cbn [caches now claimed skippedWaiting trace call with_caches].
      f_equal.
      * rewrite delete_filter, list_filter_filter.
        apply list_filter_iff. intros [n' c']. simpl.
        rewrite not_elem_of_cons. split; [tauto|].
        intros [Heq|[? ?]]; [|tauto]. split; [by left|]. congruence.
      * unfold deletion_calls. simpl. rewrite decide_True by done.
        by rewrite <- !(assoc_L (++)).
    + unfold mret at 1. unfold Worker_ret at 1. rewrite IH.
      f_equal. f_equal.
      * apply list_filter_iff. intros [n' c']. simpl.
        rewrite not_elem_of_cons. split; [|tauto].
        intros [Heq|?]; [by left|].
        destruct (decide (n' = CACHE_NAME)); [by left|].
        right. split; [congruence|done].
      * unfold deletion_calls. simpl.
        rewrite decide_False; [done|]. intros Hne. by apply Hne.
Qed.

Lemma filter_listed_names
    (cs : list (jsstring * gmap (jsstring * jsstring) Response))
    (cacheNames : list jsstring) :
  (∀ e, e ∈ cs → e.1 ∈ cacheNames) →
  filter (λ e, e.1 = CACHE_NAME ∨ e.1 ∉ cacheNames) cs
  = filter (λ e, e.1 = CACHE_NAME) cs.
Proof.
  induction cs as [|e cs IH]; intros Hin; [done|].
  assert (e.1 ∈ cacheNames) as He by (apply Hin; by left).
  assert (∀ e', e' ∈ cs → e'.1 ∈ cacheNames) as Hin'
    by (intros e' He'; apply Hin; by right).
  destruct (decide (e.1 = CACHE_NAME)) as [Heq|Hne].
  - rewrite !filter_cons_True by (done || by left). by rewrite IH.
  - rewrite !filter_cons_False by tauto. by apply IH.
Qed.

Lemma activate_run rt :
  activate rt
  = ((), {| caches := filter (λ e, e.1 = CACHE_NAME) (caches rt);
            now := now rt; claimed := true;
            skippedWaiting := skippedWaiting rt;
            trace :=
              trace rt
                ++ [ConsoleLog [js "SW Activate"]; CachesKeys]
                ++ deletion_calls (Storage.keys (caches rt))
                ++ [ClientsClaim] |}).
Proof.
  unfold activate, mbind, Worker_bind, console_log, caches_keys.
  cbn [call caches now claimed skippedWaiting trace].
  rewrite delete_old_caches_run. unfold clients_claim.
  cbn [call caches now claimed skippedWaiting trace].
  f_equal. f_equal.
  - apply filter_listed_names. intros e He.
    apply list_elem_of_fmap. by exists e.
  - by rewrite <- !(assoc_L (++)).
Qed.

End HandlerFacts.

(** ** The claims about the worker *)

(** What the handler does with a live response. For a GET request
    whose fetch succeeds the handler always answers with the live
    response. It puts a duplicate of the response into the cache of
    the current generation, under the identity of the request and over
    any earlier entry, if and only if the response is ok (status 200
    to 299) and the URL of the request does not contain the text
    [/sw.js]; otherwise it makes no call on the cache storage and
    leaves it as it was. *)
Theorem fetch_handler_caches_live_response
    (net : Request → option Response) (request : Request)
    (response : Response) (rt : Runtime) :
  method request = js "GET" →
  net request = Some response →
  (ServiceWorker.fetch_handler net request rt).1 = Some response
  ∧ (CachePut ServiceWorker.CACHE_NAME request response
       ∈ calls_since rt (ServiceWorker.fetch_handler net request rt).2
     ↔ ok response = true
       ∧ JsString.includes (url request) (js "/sw.js") = false)
  ∧ (ok response = true
     ∧ JsString.includes (url request) (js "/sw.js") = false →
     ∃ cache : gmap (jsstring * jsstring) Response,
       Storage.get ServiceWorker.CACHE_NAME
         (caches (ServiceWorker.fetch_handler net request rt).2)
       = Some cache
       ∧ cache !! identity request = Some response
       ∧ (∀ k, k ≠ identity request →
               cache !! k
               = default ∅ (Storage.get ServiceWorker.CACHE_NAME (caches rt))
                   !! k)
       ∧ ∀ name, name ≠ ServiceWorker.CACHE_NAME →
           Storage.get name
             (caches (ServiceWorker.fetch_handler net request rt).2)
           = Storage.get name (caches rt))
  ∧ (¬ (ok response = true
        ∧ JsString.includes (url request) (js "/sw.js") = false) →
     caches (ServiceWorker.fetch_handler net request rt).2 = caches rt
     ∧ calls_since rt (ServiceWorker.fetch_handler net request rt).2
       = [Fetch request]).
Proof.
  intros Hm Hnet. rewrite (fetch_handler_live _ _ _ _ Hm Hnet).
  cbn [fst snd]. split; [done|].
  destruct (ok response) eqn:Hok;
    [destruct (JsString.includes (url request) (js "/sw.js")) eqn:Hsw|];
    cbn [andb negb].
  - rewrite (calls_since_app _ _ [Fetch request]) by done.
    split_and!; [|by intros [_ ?]|done].
    split; [|by intros [_ ?]]. by intros ?%list_elem_of_singleton.
  - rewrite (calls_since_app _ _
      [Fetch request; CachesOpen ServiceWorker.CACHE_NAME;
       CachePut ServiceWorker.CACHE_NAME request response;
       ConsoleLog [js "Cached:"; url request]])
      by (cbn [trace call with_caches]; by rewrite <- !(assoc_L (++))).
    split_and!.
    + split; [done|]. intros _. do 2 right. by left.
    + intros _. cbn [caches call with_caches].
      exists (<[identity request := response]>
                (default ∅ (Storage.get ServiceWorker.CACHE_NAME (caches rt)))).
      split_and!.
      * by rewrite get_put, get_open.
      * apply lookup_insert_eq.
      * intros k Hk. by apply lookup_insert_ne.
      * intros name Hname. by rewrite get_put_ne, get_open_ne.
    + intros H. by destruct H.
  - rewrite (calls_since_app _ _ [Fetch request]) by done.
    split_and!; [|by intros [? _]|done].
    split; [|by intros [? _]]. by intros ?%list_elem_of_singleton.
Qed.

Example fetch_handler_caches_live_response_example :
  method (Examples.GET (js "https://example.com/page")) = js "GET"
  ∧ Examples.online Examples.response_200
      (Examples.GET (js "https://example.com/page"))
    = Some Examples.response_200
  ∧ (ServiceWorker.fetch_handler (Examples.online Examples.response_200)
       (Examples.GET (js "https://example.com/page"))
       Examples.fresh_runtime).1
    = Some Examples.response_200
  ∧ CachePut ServiceWorker.CACHE_NAME
      (Examples.GET (js "https://example.com/page")) Examples.response_200
    ∈ calls_since Examples.fresh_runtime
        (ServiceWorker.fetch_handler (Examples.online Examples.response_200)
           (Examples.GET (js "https://example.com/page"))
           Examples.fresh_runtime).2.
Proof.
  destruct (fetch_handler_caches_live_response
              (Examples.online Examples.response_200)
              (Examples.GET (js "https://example.com/page"))
              Examples.response_200 Examples.fresh_runtime
              eq_refl eq_refl) as (Hanswer & Hput & _).
  split_and!; [done|done|done|]. apply Hput. by vm_compute.
Defined.

(** Claim C1. The handler stores every ok response except where the
    URL has [/sw.js] in it, which is more than the path of the worker
    script: the GET request for [https://example.com/sw.json] is not
    for the path at which the script is served, its response is ok,
    and the handler answers with it and stores nothing, where the
    claim has a duplicate stored. A request for an ordinary page with
    the same response is stored. *)
Theorem fetch_handler_leaves_sw_json_uncached :
  ok Examples.response_200 = true
  ∧ Builtins.URL_pathname (js "https://example.com/sw.json") = js "/sw.json"
  ∧ serves_worker_script (Examples.GET (js "https://example.com/sw.json"))
    = false
  ∧ ServiceWorker.fetch_handler (Examples.online Examples.response_200)
      (Examples.GET (js "https://example.com/sw.json")) Examples.fresh_runtime
    = (Some Examples.response_200,
       {| caches := []; now := 1700000000000; claimed := false;
          skippedWaiting := false;
          trace := [Fetch (Examples.GET (js "https://example.com/sw.json"))] |})
  ∧ caches
      (ServiceWorker.fetch_handler (Examples.online Examples.response_200)
         (Examples.GET (js "https://example.com/page"))
         Examples.fresh_runtime).2
    = [(ServiceWorker.CACHE_NAME,
        {[ identity (Examples.GET (js "https://example.com/page"))
           := Examples.response_200 ]})].
Proof. by vm_compute. Qed.

(** The synthesized responses. For a GET request whose fetch fails
    and for which no cache holds a response, the handler answers with
    a response it makes itself, of status 503, and leaves the cache
    storage as it was. If the URL of the request contains the text
    [/api/] the body is the JSON text of an object with the members
    [error] (the string Offline), [message] and [timestamp] (the
    current time in ISO-8601), with the content type of JSON;
    otherwise the body is plain text and the status text is Service
    Unavailable. *)
Theorem fetch_handler_offline_fallback
    (net : Request → option Response) (request : Request) (rt : Runtime) :
  method request = js "GET" →
  net request = None →
  Storage.match_ request (caches rt) = None →
  (JsString.includes (url request) (js "/api/") = true →
   (ServiceWorker.fetch_handler net request rt).1
   = Some {| status := 503;
             statusText := [];
             headers := [(js "content-type", js "application/json")];
             body :=
               Builtins.JSON_stringify
                 [(js "error", js "Offline");
                  (js "message", js "No cached data available");
                  (js "timestamp", Builtins.toISOString (now rt))] |})
  ∧ (JsString.includes (url request) (js "/api/") = false →
     (ServiceWorker.fetch_handler net request rt).1
     = Some {| status := 503;
               statusText := js "Service Unavailable";
               headers :=
                 [(js "content-type", js "text/plain;charset=UTF-8")];
               body := js "Offline - No cached version available" |})
  ∧ Builtins.is_ISO_8601 (Builtins.toISOString (now rt)) = true
  ∧ caches (ServiceWorker.fetch_handler net request rt).2 = caches rt.
Proof.
  intros Hm Hnet Hmatch.
  rewrite (fetch_handler_offline _ _ _ Hm Hnet), Hmatch. cbn [fst snd].
  split_and!.
  - intros ->. by rewrite offline_api_response_eq.
  - intros ->. by rewrite offline_response_eq.
  - apply toISOString_shape.
  - done.
Qed.

Example fetch_handler_offline_fallback_example :
  method (Examples.GET (js "https://example.com/api/x")) = js "GET"
  ∧ Examples.offline (Examples.GET (js "https://example.com/api/x")) = None
  ∧ Storage.match_ (Examples.GET (js "https://example.com/api/x"))
      (caches Examples.stocked_runtime) = None
  ∧ (ServiceWorker.fetch_handler Examples.offline
       (Examples.GET (js "https://example.com/api/x"))
       Examples.stocked_runtime).1
    = Some {| status := 503;
              statusText := [];
              headers := [(js "content-type", js "application/json")];
              body :=
                Builtins.JSON_stringify
                  [(js "error", js "Offline");
                   (js "message", js "No cached data available");
                   (js "timestamp", js "2023-11-14T22:13:20.000Z")] |}.
Proof.
  assert (Storage.match_ (Examples.GET (js "https://example.com/api/x"))
            (caches Examples.stocked_runtime) = None) as Hmatch
    by (by vm_compute).
  destruct (fetch_handler_offline_fallback Examples.offline
              (Examples.GET (js "https://example.com/api/x"))
              Examples.stocked_runtime eq_refl eq_refl Hmatch)
    as (Hapi & _).
  split_and!; [done|done|done|]. rewrite Hapi by (by vm_compute).
  by vm_compute.
Defined.

(** Claim C2. The synthesized response has status 503 and the two
    bodies of the claim, but which of the two is not decided by the
    request path: the two failed GET requests below have the same
    path, [/docs], without [/api/] in it, and the handler answers the
    plain one with the plain text and the one whose query string
    mentions [/api/] with the JSON body and an empty status text,
    where the claim has plain text and Service Unavailable. *)
Theorem fetch_handler_json_for_api_in_query :
  Builtins.URL_pathname (js "https://example.com/docs") = js "/docs"
  ∧ Builtins.URL_pathname (js "https://example.com/docs?topic=/api/")
    = js "/docs"
  ∧ JsString.includes (js "/docs") (js "/api/") = false
  ∧ (ServiceWorker.fetch_handler Examples.offline
       (Examples.GET (js "https://example.com/docs")) Examples.fresh_runtime).1
    = Some {| status := 503;
              statusText := js "Service Unavailable";
              headers := [(js "content-type", js "text/plain;charset=UTF-8")];
              body := js "Offline - No cached version available" |}
  ∧ (ServiceWorker.fetch_handler Examples.offline
       (Examples.GET (js "https://example.com/docs?topic=/api/"))
       Examples.fresh_runtime).1
    = Some {| status := 503;
              statusText := [];
              headers := [(js "content-type", js "application/json")];
              body :=
                Builtins.JSON_stringify
                  [(js "error", js "Offline");
                   (js "message", js "No cached data available");
                   (js "timestamp", js "2023-11-14T22:13:20.000Z")] |}.
Proof. by vm_compute. Qed.



(** Claim C4. The activation reads the names of all caches, deletes
    every cache whose name is not the name of the current generation,
    and only after the deletions claims the clients: afterwards the
    storage holds the caches of the current name only, with their
    entries as they were. *)
Theorem activate_keeps_current_generation_only (rt : Runtime) :
  caches (ServiceWorker.activate rt).2
  = filter (λ e, e.1 = ServiceWorker.CACHE_NAME) (caches rt)
  ∧ (∀ name, name ∈ Storage.keys (caches (ServiceWorker.activate rt).2) ↔
             name = ServiceWorker.CACHE_NAME
             ∧ name ∈ Storage.keys (caches rt))
  ∧ Storage.get ServiceWorker.CACHE_NAME (caches (ServiceWorker.activate rt).2)
    = Storage.get ServiceWorker.CACHE_NAME (caches rt)
  ∧ claimed (ServiceWorker.activate rt).2 = true
  ∧ calls_since rt (ServiceWorker.activate rt).2
    = [ConsoleLog [js "SW Activate"]; CachesKeys]
        ++ deletion_calls (Storage.keys (caches rt))
        ++ [ClientsClaim]
  ∧ (∀ name, CachesDelete name ∈ deletion_calls (Storage.keys (caches rt)) ↔
             name ∈ Storage.keys (caches rt)
             ∧ name ≠ ServiceWorker.CACHE_NAME)
  ∧ ClientsClaim ∉ deletion_calls (Storage.keys (caches rt)).
Proof.
  rewrite activate_run. cbn [snd caches claimed].
  split_and!.
  - done.
  - intros name. unfold Storage.keys. rewrite !list_elem_of_fmap. split.
    + intros (e & -> & [He Hname]%list_elem_of_filter). split; [done|].
      by exists e.
    + intros (Hname & e & -> & He). exists e. split; [done|].
      by apply list_elem_of_filter.
  - induction (caches rt) as [|[n c] cs IH]; [done|].
    destruct (decide (n = ServiceWorker.CACHE_NAME)) as [Heq|Hne].
    + rewrite filter_cons_True by done. cbn [Storage.get].
      by rewrite !decide_True.
    + rewrite filter_cons_False by done. cbn [Storage.get].
      by rewrite decide_False.
  - done.
  - by apply calls_since_app.
  - intros name. unfold deletion_calls.
    rewrite list_elem_of_In, in_flat_map. split.
    + intros (n & Hn%list_elem_of_In & Hdel%list_elem_of_In).
      case_decide as Hne; [|by apply elem_of_nil in Hdel].
      apply elem_of_cons in Hdel as [[=]|Hdel].
      apply list_elem_of_singleton in Hdel as [= ->]. done.
    + intros [Hn Hne]. exists name. split; [by apply list_elem_of_In|].
      rewrite decide_True by done. apply list_elem_of_In. right. by left.
  - unfold deletion_calls. rewrite list_elem_of_In, in_flat_map.
    intros (n & _ & Hdel%list_elem_of_In).
    case_decide; [|by apply elem_of_nil in Hdel].
    apply elem_of_cons in Hdel as [[=]|Hdel].
    by apply list_elem_of_singleton in Hdel.
Qed.

(** Claim C5. A request whose method is not GET passes through: the
    handler gives no response of its own, makes no call on the
    platform and leaves the runtime, the cache storage with it, as it
    was, whatever the network would answer. *)
Theorem fetch_handler_passes_other_methods
    (net : Request → option Response) (request : Request) (rt : Runtime) :
  method request ≠ js "GET" →
  ServiceWorker.fetch_handler net request rt = (None, rt)
  ∧ caches (ServiceWorker.fetch_handler net request rt).2 = caches rt
  ∧ calls_since rt (ServiceWorker.fetch_handler net request rt).2 = [].
Proof.
  intros Hm. rewrite (fetch_handler_other_method _ _ _ Hm).
  split_and!; [done|done|]. apply calls_since_app. by rewrite app_nil_r.
Qed.

Lemma fetch_handler_passes_other_methods_witness :
  method {| method := js "POST"; url := js "https://example.com/api/x" |}
  ≠ js "GET"
  ∧ ServiceWorker.fetch_handler (Examples.online Examples.response_200)
      {| method := js "POST"; url := js "https://example.com/api/x" |}
      Examples.stocked_runtime
    = (None, Examples.stocked_runtime)
  ∧ ServiceWorker.fetch_handler Examples.offline
      {| method := js "POST"; url := js "https://example.com/api/x" |}
      Examples.stocked_runtime
    = (None, Examples.stocked_runtime).
Proof.
  assert (method {| method := js "POST"; url := js "https://example.com/api/x" |}
          ≠ js "GET") as Hm by (by vm_compute).
  split_and!; [done| |].
  - by apply (fetch_handler_passes_other_methods
                (Examples.online Examples.response_200) _
                Examples.stocked_runtime Hm).
  - by apply (fetch_handler_passes_other_methods Examples.offline _
                Examples.stocked_runtime Hm).
Defined.




(** * Further properties *)

#[local] Opaque offlineScripts.

(** ** The injector, continued *)

Section InjectorMore.
Import JsString.
Implicit Types html pre post x y : jsstring.

Local Abbreviation block := offlineScripts.
Local Abbreviation marker := (js "</body>").

Lemma replicate_block_comm k :
  concat (replicate k block) ++ block = block ++ concat (replicate k block).
Proof.
  induction k as [|k IH]; simpl; [by rewrite app_nil_r|].
  by rewrite <- (assoc_L (++)), IH.
Qed.

(** A part of a document with [k] blocks after it. *)
Local Abbreviation stacked x k := (x ++ concat (replicate k block)).

Lemma stacked_S x k : stacked x (S k) = stacked x k ++ block.
Proof.
  cbn [replicate concat].
  by rewrite <- replicate_block_comm, (assoc_L (++)).
Qed.

Lemma makeOffline_at pre post :
  StringIndexOf (pre ++ marker ++ post) marker = Some (length pre) →
  makeOffline (pre ++ marker ++ post) = pre ++ block ++ marker ++ post.
Proof.
  intros Hi. rewrite (makeOffline_inserts _ _ Hi), take_app_length.
  replace (pre ++ marker ++ post) with ((pre ++ marker) ++ post)
    by (by rewrite <- (assoc_L (++))).
  by rewrite <- length_app, drop_app_length.
Qed.

(** Where the first marker is after an insertion or an append. *)
Lemma makeOffline_index html :
  StringIndexOf (makeOffline html) marker
  = (λ i, (i + length block)%nat) <$> StringIndexOf html marker.
Proof.
  destruct (StringIndexOf html marker) as [i|] eqn:Hi; simpl.
  - pose proof (StringIndexOf_Some _ _ _ Hi) as (Hle & _ & Hfirst).
    pose proof (StringIndexOf_split _ _ _ Hi) as [Hsplit Hlen].
    rewrite (makeOffline_inserts _ _ Hi).
    replace (Some (i + length block)%nat)
      with (Some (length (take i html) + length block)%nat)
      by (by rewrite Hlen).
    apply inserted_first_marker.
    intros j Hj. rewrite <- Hsplit. apply Hfirst. lia.
  - apply includes_false. rewrite makeOffline_appends
      by (by apply includes_false).
    apply appended_without_marker. by apply includes_false.
Qed.

End InjectorMore.

(** X1. The injector adds the code units of the block and nothing
    else: the result is longer than the document by the length of the
    block, 4003 code units, whether the block is inserted or
    appended. *)
Theorem makeOffline_length (html : jsstring) :
  length (makeOffline html) = (length html + length offlineScripts)%nat
  ∧ length offlineScripts = 4003%nat.
Proof.
  split; [|apply block_length].
  destruct (JsString.StringIndexOf html (js "</body>")) as [i|] eqn:Hi.
  - pose proof (StringIndexOf_split _ _ _ Hi) as [Hsplit Hlen].
    rewrite (makeOffline_inserts _ _ Hi). rewrite Hsplit at 3.
    rewrite !length_app. lia.
  - rewrite makeOffline_appends by (by apply includes_false).
    by rewrite length_app.
Qed.

(** X2. The injector neither adds nor removes a closing body marker
    before the first one: the first marker of the result is the first
    marker of the document, moved back by the length of the block, and
    a document without a marker gives a result without one. *)
Theorem makeOffline_first_marker (html : jsstring) :
  JsString.StringIndexOf (makeOffline html) (js "</body>")
  = (λ i, (i + length offlineScripts)%nat)
      <$> JsString.StringIndexOf html (js "</body>")
  ∧ JsString.includes (makeOffline html) (js "</body>")
    = JsString.includes html (js "</body>").
Proof.
  pose proof (makeOffline_index html) as H. split; [done|].
  unfold JsString.includes. rewrite H.
  by destruct (JsString.StringIndexOf html (js "</body>")).
Qed.

(** X3. The injector loses nothing of the document: two documents
    with the same result are the same document. *)
Theorem makeOffline_injective (html1 html2 : jsstring) :
  makeOffline html1 = makeOffline html2 → html1 = html2.
Proof.
  intros Heq.
  pose proof (makeOffline_index html1) as H1.
  pose proof (makeOffline_index html2) as H2.
  rewrite Heq, H2 in H1.
  destruct (JsString.StringIndexOf html1 (js "</body>")) as [i1|] eqn:Hi1;
    destruct (JsString.StringIndexOf html2 (js "</body>")) as [i2|] eqn:Hi2;
    simpl in H1; try done.
  - injection H1 as H1. assert (i2 = i1) as -> by lia.
    pose proof (StringIndexOf_split _ _ _ Hi1) as [Hsplit1 Hlen1].
    pose proof (StringIndexOf_split _ _ _ Hi2) as [Hsplit2 Hlen2].
    rewrite (makeOffline_inserts _ _ Hi1), (makeOffline_inserts _ _ Hi2)
      in Heq.
    apply app_inj_1 in Heq as [Hpre Hrest]; [|by rewrite Hlen1, Hlen2].
    apply app_inv_head in Hrest. apply app_inv_head in Hrest.
    rewrite Hsplit1, Hsplit2. by rewrite Hpre, Hrest.
  - rewrite !makeOffline_appends in Heq by (by apply includes_false).
    by apply app_inv_tail in Heq.
Qed.

Lemma makeOffline_injective_witness :
  makeOffline (js "<body></body>") = makeOffline (js "<body></body>")
  ∧ js "<body></body>" = js "<body></body>".
Proof.
  split; [done|]. by apply (makeOffline_injective (js "<body></body>")).
Defined.

(** X4. Applying the injector again and again stacks the blocks at
    one place: the document splits in two parts, at its first closing
    body marker or at its end, and after [n] applications the result
    is the first part, [n] copies of the block, and the second
    part. *)
Theorem makeOffline_iterated (html : jsstring) :
  ∃ x y,
    html = x ++ y
    ∧ (JsString.StringIndexOf html (js "</body>") = Some (length x)
       ∨ JsString.StringIndexOf html (js "</body>") = None ∧ y = [])
    ∧ ∀ n, Nat.iter n makeOffline html
           = x ++ concat (replicate n offlineScripts) ++ y.
Proof.
  destruct (JsString.StringIndexOf html (js "</body>")) as [i|] eqn:Hi.
  - pose proof (StringIndexOf_split _ _ _ Hi) as [Hsplit Hlen].
    set (pre := take i html) in *.
    set (post := drop (i + length (js "</body>")) html) in *.
    exists pre, (js "</body>" ++ post).
    split_and!; [done|left; by rewrite Hlen|].
    assert (∀ n,
      Nat.iter n makeOffline html
      = (pre ++ concat (replicate n offlineScripts)) ++ js "</body>" ++ post
      ∧ JsString.StringIndexOf (Nat.iter n makeOffline html) (js "</body>")
        = Some (length ((pre ++ concat (replicate n offlineScripts))))) as Hn.
    { induction n as [|n [IHn IHi]].
      - change (Nat.iter 0 makeOffline html) with html.
        cbn [replicate concat]. rewrite app_nil_r.
        split; [done|]. by rewrite Hlen.
      - rewrite Nat.iter_succ, IHn. rewrite IHn in IHi.
        rewrite (makeOffline_at _ _ IHi), stacked_S.
        split; [by rewrite <- !(assoc_L (++))|].
        rewrite length_app. apply inserted_first_marker.
        intros j Hj. by apply (StringIndexOf_Some _ _ _ IHi). }
    intros n. destruct (Hn n) as [-> _].
    by rewrite <- (assoc_L (++)).
  - exists html, []. split_and!; [by rewrite app_nil_r|by right|].
    assert (∀ n,
      Nat.iter n makeOffline html = (html ++ concat (replicate n offlineScripts))
      ∧ JsString.includes (Nat.iter n makeOffline html) (js "</body>")
        = false) as Hn.
    { induction n as [|n [IHn IHi]].
      - change (Nat.iter 0 makeOffline html) with html.
        cbn [replicate concat]. rewrite app_nil_r.
        split; [done|]. by apply includes_false.
      - rewrite Nat.iter_succ, (makeOffline_appends _ IHi).
        split; [by rewrite IHn, stacked_S|].
        by apply appended_without_marker. }
    intros n. rewrite app_nil_r. apply Hn.
Qed.

(** ** The worker, continued *)

Section WorkerMore.
Import ServiceWorker Platform Builtins.
Implicit Types cs : list (jsstring * gmap (jsstring * jsstring) Response).
Implicit Types (net : Request → option Response) (rt : Runtime).
Implicit Types (request : Request) (response : Response).



(** What a fetch leaves of the storage: as it was, or with the
    response put into the opened cache of the current name. *)
Lemma fetch_handler_caches net request rt :
  caches (fetch_handler net request rt).2 = caches rt
  ∨ ∃ response,
      net request = Some response
      ∧ method request = js "GET"
      ∧ ok response = true
      ∧ JsString.includes (url request) (js "/sw.js") = false
      ∧ caches (fetch_handler net request rt).2
        = Storage.put CACHE_NAME request response
            (Storage.open CACHE_NAME (caches rt)).
Proof.
  destruct (decide (method request = js "GET")) as [Hm|Hm].
  - destruct (net request) as [response|] eqn:Hnet.
    + rewrite (fetch_handler_live _ _ _ _ Hm Hnet). cbn [snd].
      destruct (ok response) eqn:Hok; [|by left].
      destruct (JsString.includes (url request) (js "/sw.js")) eqn:Hsw;
        [by left|].
      right. by exists response.
    + left. rewrite (fetch_handler_offline _ _ _ Hm Hnet).
      destruct (Storage.match_ request (caches rt)); done.
  - left. by rewrite (fetch_handler_other_method _ _ _ Hm).
Qed.


Lemma match_app_Some request cs cs' :
  is_Some (Storage.match_ request cs) →
  is_Some (Storage.match_ request (cs ++ cs')).
Proof.
  induction cs as [|[n c] cs IH]; cbn [Storage.match_ app].
  - by intros [? ?].
  - destruct (c !! identity request); [done|]. apply IH.
Qed.

(** Neither opening nor putting takes a response away. *)
Lemma match_open_Some request name cs :
  is_Some (Storage.match_ request cs) →
  is_Some (Storage.match_ request (Storage.open name cs)).
Proof.
  unfold Storage.open. destruct (Storage.get name cs); [done|].
  apply match_app_Some.
Qed.

Lemma match_put_Some request name request' response cs :
  is_Some (Storage.match_ request cs) →
  is_Some (Storage.match_ request (Storage.put name request' response cs)).
Proof.
  induction cs as [|[n c] cs IH]; [done|]. cbn [Storage.put].
  case_decide; cbn [Storage.match_].
  - destruct (decide (identity request' = identity request)) as [->|Hne].
    + by rewrite lookup_insert_eq.
    + by rewrite lookup_insert_ne.
  - destruct (c !! identity request); [done|]. apply IH.
Qed.

Lemma elem_of_open e name cs :
  e ∈ Storage.open name cs → e ∈ cs ∨ e.1 = name.
Proof.
  unfold Storage.open. destruct (Storage.get name cs); [by left|].
  intros [?|Hin]%elem_of_app; [by left|].
  apply list_elem_of_singleton in Hin as ->. by right.
Qed.

Lemma elem_of_put_name e name request response cs :
  e ∈ Storage.put name request response cs → ∃ e', e' ∈ cs ∧ e'.1 = e.1.
Proof.
  induction cs as [|[n c] cs IH]; cbn [Storage.put].
  - by intros ?%elem_of_nil.
  - case_decide.
    + intros [->|Hin]%elem_of_cons.
      * exists (n, c). split; [by left|done].
      * exists e. split; [by right|done].
    + intros [->|Hin]%elem_of_cons.
      * exists (n, c). split; [by left|done].
      * destruct (IH Hin) as (e' & He' & Hname).
        exists e'. split; [by right|done].
Qed.

Lemma only_current_generation_forall rt :
  only_current_generation rt ↔ ∀ e, e ∈ caches rt → e.1 = CACHE_NAME.
Proof. apply Forall_forall. Qed.

Lemma only_current_generation_fetch net request rt :
  only_current_generation rt →
  only_current_generation (fetch_handler net request rt).2.
Proof.
  rewrite !only_current_generation_forall. intros Hall.
  destruct (fetch_handler_caches net request rt)
    as [Heq|(response & _ & _ & _ & _ & Heq)];
    rewrite Heq; [done|].
  intros e (e' & [He'|He']%elem_of_open & <-)%elem_of_put_name;
    [by apply Hall|done].
Qed.

Lemma only_current_generation_activate rt :
  only_current_generation (activate rt).2.
Proof.
  apply only_current_generation_forall.
  rewrite activate_run. intros e. cbn [snd caches].
  by intros [? _]%list_elem_of_filter.
Qed.

Lemma message_caches data_type rt :
  caches (message data_type rt).2 = caches rt.
Proof.
  unfold message. destruct data_type as [t|]; [|done].
  by case_decide.
Qed.

Lemma only_current_generation_dispatch rt e :
  only_current_generation rt → only_current_generation (dispatch rt e).
Proof.
  intros Hall. destruct e as [| |net request|data_type]; cbn [dispatch].
  - done.
  - apply only_current_generation_activate.
  - by apply only_current_generation_fetch.
  - unfold only_current_generation. by rewrite message_caches.
Qed.

Lemma only_current_generation_dispatch_all rt events :
  only_current_generation rt →
  only_current_generation (dispatch_all rt events).
Proof.
  revert rt. induction events as [|e events IH]; intros rt Hall; [done|].
  apply IH. by apply only_current_generation_dispatch.
Qed.

Lemma filter_current_id cs :
  (∀ e, e ∈ cs → e.1 = CACHE_NAME) →
  filter (λ e, e.1 = CACHE_NAME) cs = cs.
Proof.
  induction cs as [|e cs IH]; intros Hall; [done|].
  rewrite filter_cons_True by (apply Hall; by left).
  rewrite IH; [done|]. intros e' He'. apply Hall. by right.
Qed.

Lemma dispatch_keeps_stored request rt e :
  only_current_generation rt →
  is_Some (Storage.match_ request (caches rt)) →
  is_Some (Storage.match_ request (caches (dispatch rt e))).
Proof.
  intros Hall Hsome.
  pose proof (proj1 (only_current_generation_forall rt) Hall) as Hall'.
  destruct e as [| |net request'|data_type]; cbn [dispatch].
  - done.
  - rewrite activate_run. cbn [snd caches]. by rewrite filter_current_id.
  - destruct (fetch_handler_caches net request' rt)
      as [->|(response & _ & _ & _ & _ & ->)]; [done|].
    by apply match_put_Some, match_open_Some.
  - by rewrite message_caches.
Qed.

Lemma dispatch_all_keeps_stored request rt events :
  only_current_generation rt →
  is_Some (Storage.match_ request (caches rt)) →
  is_Some (Storage.match_ request (caches (dispatch_all rt events))).
Proof.
  revert rt. induction events as [|e events IH]; intros rt Hall Hsome;
    [done|].
  apply IH.
  - by apply only_current_generation_dispatch.
  - by apply dispatch_keeps_stored.
Qed.

(** *** The path of a URL is a part of it *)

Lemma skip_authority_suffix (s : jsstring) :
  ∃ x, s = x ++ skip_authority s.
Proof.
  induction s as [|c s [x IH]]; [by exists []|]. cbn [skip_authority].
  case_bool_decide; [by exists []|].
  exists (c :: x). cbn [app]. by rewrite <- IH.
Qed.

Lemma take_path_prefix (s : jsstring) :
  ∃ y, s = take_path s ++ y.
Proof.
  induction s as [|c s [y IH]]; [by exists []|]. cbn [take_path].
  case_bool_decide; [by exists (c :: s)|].
  exists y. cbn [app]. by rewrite <- IH.
Qed.

Lemma URL_pathname_part (href : jsstring) :
  URL_pathname href ≠ js "/" →
  ∃ x y, href = x ++ URL_pathname href ++ y.
Proof.
  unfold URL_pathname.
  set (after_scheme :=
         match JsString.StringIndexOf href (js "://") with
         | Some i => drop (i + 3) href
         | None => href
         end).
  assert (∃ x0, href = x0 ++ after_scheme) as [x0 H0].
  { unfold after_scheme.
    destruct (JsString.StringIndexOf href (js "://")) as [i|].
    - exists (take (i + 3) href). by rewrite take_drop.
    - by exists []. }
  destruct (skip_authority_suffix after_scheme) as [x1 H1].
  destruct (take_path_prefix (skip_authority after_scheme)) as [y H2].
  destruct (take_path (skip_authority after_scheme)) as [|c path] eqn:E;
    [done|].
  intros _. exists (x0 ++ x1), y.
  rewrite <- (assoc_L (++)), <- H2, <- H1. done.
Qed.

(** A request for the path of the worker script has [/sw.js] in its
    URL. *)
Lemma serves_worker_script_includes request :
  serves_worker_script request = true →
  JsString.includes (url request) (js "/sw.js") = true.
Proof.
  unfold serves_worker_script. intros Hp%bool_decide_eq_true.
  destruct (URL_pathname_part (url request)) as (x & y & Hurl).
  { rewrite Hp. by vm_compute. }
  rewrite Hp in Hurl. rewrite Hurl. apply includes_app.
Qed.

End WorkerMore.

(** X5. A GET request always gets an answer from the handler, and the
    answer is the live response, or, when the fetch failed, the
    response the storage holds, or, when it holds none, a response of
    status 503 that is not ok. *)
Theorem fetch_handler_always_answers
    (net : Request → option Response) (request : Request) (rt : Runtime) :
  method request = js "GET" →
  ∃ response,
    (ServiceWorker.fetch_handler net request rt).1 = Some response
    ∧ (net request = Some response
       ∨ net request = None
         ∧ (Storage.match_ request (caches rt) = Some response
            ∨ Storage.match_ request (caches rt) = None
              ∧ status response = 503
              ∧ ok response = false)).
Proof.
  intros Hm. destruct (net request) as [response|] eqn:Hnet.
  - exists response. rewrite (fetch_handler_live _ _ _ _ Hm Hnet).
    split; [done|by left].
  - rewrite (fetch_handler_offline _ _ _ Hm Hnet).
    destruct (Storage.match_ request (caches rt)) as [cached|].
    + exists cached. split; [done|]. right. split; [done|by left].
    + eexists. split; [done|]. right. split; [done|]. right.
      split; [done|].
      by destruct (JsString.includes (url request) (js "/api/")).
Qed.

Lemma fetch_handler_always_answers_witness :
  method (Examples.GET (js "https://example.com/page")) = js "GET"
  ∧ ∃ response,
      (ServiceWorker.fetch_handler Examples.offline
         (Examples.GET (js "https://example.com/page"))
         Examples.fresh_runtime).1 = Some response
      ∧ status response = 503.
Proof.
  split; [done|].
  destruct (fetch_handler_always_answers Examples.offline
              (Examples.GET (js "https://example.com/page"))
              Examples.fresh_runtime eq_refl)
    as (response & Hanswer & [Hlive|(_ & [Hstored|(_ & Hstatus & _)])]);
    [done|done|].
  by exists response.
Defined.


(** X7. The worker script itself is never stored: a GET request that
    the router answers with the script (its path is [/sw.js]) gets the
    live response, and the handler makes no call on the cache
    storage. *)
Theorem worker_script_never_cached
    (net : Request → option Response) (request : Request)
    (response : Response) (rt : Runtime) :
  method request = js "GET" →
  serves_worker_script request = true →
  net request = Some response →
  ServiceWorker.fetch_handler net request rt
  = (Some response, call (Fetch request) rt)
  ∧ caches (ServiceWorker.fetch_handler net request rt).2 = caches rt.
Proof.
  intros Hm Hsw%serves_worker_script_includes Hnet.
  rewrite (fetch_handler_live _ _ _ _ Hm Hnet), Hsw, andb_false_r.
  done.
Qed.

Lemma worker_script_never_cached_witness :
  method (Examples.GET (js "https://example.com/sw.js?v=2")) = js "GET"
  ∧ serves_worker_script (Examples.GET (js "https://example.com/sw.js?v=2"))
    = true
  ∧ caches
      (ServiceWorker.fetch_handler (Examples.online Examples.response_200)
         (Examples.GET (js "https://example.com/sw.js?v=2"))
         Examples.stocked_runtime).2
    = caches Examples.stocked_runtime.
Proof.
  split_and!; [done|by vm_compute|].
  apply (worker_script_never_cached (Examples.online Examples.response_200)
           (Examples.GET (js "https://example.com/sw.js?v=2"))
           Examples.response_200 Examples.stocked_runtime);
    [done|by vm_compute|done].
Defined.

(** X8. From the activation on, whatever events the worker handles
    (installs, activations, fetches of any request against any
    network, messages), the storage holds caches of the current
    generation only. *)
Theorem current_generation_only_after_activation
    (rt : Runtime) (events : list WorkerEvent) :
  only_current_generation (dispatch_all rt (ActivateEvent :: events))
  ∧ ∀ name,
      name ∈ Storage.keys
               (caches (dispatch_all rt (ActivateEvent :: events))) →
      name = ServiceWorker.CACHE_NAME.
Proof.
  assert (only_current_generation
            (dispatch_all rt (ActivateEvent :: events))) as Hall.
  { cbn [dispatch_all foldl]. apply only_current_generation_dispatch_all.
    apply only_current_generation_activate. }
  split; [done|]. intros name (e & -> & He)%list_elem_of_fmap.
  by apply (proj1 (only_current_generation_forall _) Hall).
Qed.



(** X10. A live response that is not ok takes nothing away: when the
    storage holds a response for a GET request and a fetch of it is
    answered with a status outside 200 to 299, a later failed fetch is
    still answered with what [caches.match] found before. *)
Theorem failed_status_keeps_stored_response
    (net net' : Request → option Response) (request : Request)
    (response stored : Response) (rt : Runtime) :
  method request = js "GET" →
  net request = Some response →
  ok response = false →
  Storage.match_ request (caches rt) = Some stored →
  net' request = None →
  (ServiceWorker.fetch_handler net request rt).1 = Some response
  ∧ (ServiceWorker.fetch_handler net' request
       (ServiceWorker.fetch_handler net request rt).2).1
    = Some stored.
Proof.
  intros Hm Hnet Hok Hstored Hnet'.
  rewrite (fetch_handler_offline _ _ _ Hm Hnet').
  rewrite (fetch_handler_live _ _ _ _ Hm Hnet), Hok.
  cbn [andb fst snd caches call]. by rewrite Hstored.
Qed.

Lemma failed_status_keeps_stored_response_witness :
  method (Examples.GET (js "https://example.com/page")) = js "GET"
  ∧ ok Examples.response_404 = false
  ∧ Storage.match_ (Examples.GET (js "https://example.com/page"))
      (caches Examples.stocked_runtime)
    = Some Examples.response_200
  ∧ (ServiceWorker.fetch_handler Examples.offline
       (Examples.GET (js "https://example.com/page"))
       (ServiceWorker.fetch_handler (Examples.online Examples.response_404)
          (Examples.GET (js "https://example.com/page"))
          Examples.stocked_runtime).2).1
    = Some Examples.response_200.
Proof.
  assert (Storage.match_ (Examples.GET (js "https://example.com/page"))
            (caches Examples.stocked_runtime)
          = Some Examples.response_200) as Hstored by (by vm_compute).
  split_and!; [done|done|done|].
  by apply (failed_status_keeps_stored_response
              (Examples.online Examples.response_404) Examples.offline
              (Examples.GET (js "https://example.com/page"))
              Examples.response_404 Examples.response_200
              Examples.stocked_runtime).
Defined.



(** X12. Activating again changes nothing: a second activation issues
    no deletion and leaves the storage of the first. *)
Theorem activate_idempotent (rt : Runtime) :
  caches (ServiceWorker.activate (ServiceWorker.activate rt).2).2
  = caches (ServiceWorker.activate rt).2
  ∧ calls_since (ServiceWorker.activate rt).2
      (ServiceWorker.activate (ServiceWorker.activate rt).2).2
    = [ConsoleLog [js "SW Activate"]; CachesKeys; ClientsClaim].
Proof.
  pose proof (proj1 (only_current_generation_forall _)
                (only_current_generation_activate rt)) as Hall.
  rewrite (activate_run (ServiceWorker.activate rt).2). cbn [snd caches].
  split; [by apply filter_current_id|].
  apply calls_since_app. cbn [trace]. f_equal.
  assert (deletion_calls (Storage.keys (caches (ServiceWorker.activate rt).2))
          = []) as ->; [|done].
  unfold deletion_calls, Storage.keys.
  induction (caches (ServiceWorker.activate rt).2) as [|e cs IH]; [done|].
  cbn [fmap list_fmap flat_map].
  rewrite decide_False.
  - apply IH. intros e' He'. apply Hall. by right.
  - intros Hne. apply Hne. apply Hall. by left.
Qed.

(** X13. What is stored stays available: when the caches are of the
    current generation only and hold a response for a GET request,
    then after any events the worker handles a failed fetch of the
    request is still answered from the storage, never with the
    response of status 503. *)
Theorem stored_response_stays_available
    (net : Request → option Response) (request : Request) (rt : Runtime)
    (events : list WorkerEvent) :
  method request = js "GET" →
  only_current_generation rt →
  is_Some (Storage.match_ request (caches rt)) →
  net request = None →
  ∃ response,
    Storage.match_ request (caches (dispatch_all rt events)) = Some response
    ∧ (ServiceWorker.fetch_handler net request (dispatch_all rt events)).1
      = Some response.
Proof.
  intros Hm Hall Hsome Hnet.
  destruct (dispatch_all_keeps_stored request rt events Hall Hsome)
    as [response Hresponse].
  exists response. split; [done|].
  by rewrite (fetch_handler_offline _ _ _ Hm Hnet), Hresponse.
Qed.

Lemma stored_response_stays_available_witness :
  method (Examples.GET (js "https://example.com/page")) = js "GET"
  ∧ only_current_generation
      (ServiceWorker.activate Examples.stocked_runtime).2
  ∧ ∃ response,
      (ServiceWorker.fetch_handler Examples.offline
         (Examples.GET (js "https://example.com/page"))
         (dispatch_all (ServiceWorker.activate Examples.stocked_runtime).2
            [FetchEvent (Examples.online Examples.response_404)
               (Examples.GET (js "https://example.com/page"));
             ActivateEvent;
             MessageEvent None])).1
      = Some response.
Proof.
  assert (only_current_generation
            (ServiceWorker.activate Examples.stocked_runtime).2) as Hall
    by (apply (bool_decide_unpack _); by vm_compute).
  split_and!; [done|done|].
  destruct (stored_response_stays_available Examples.offline
              (Examples.GET (js "https://example.com/page"))
              (ServiceWorker.activate Examples.stocked_runtime).2
              [FetchEvent (Examples.online Examples.response_404)
                 (Examples.GET (js "https://example.com/page"));
               ActivateEvent;
               MessageEvent None]
              eq_refl Hall)
    as (response & _ & Hanswer);
    [exists Examples.response_200; by vm_compute|done|].
  by exists response.
Defined.

(** ** The router and the worker together *)

Section RouterFacts.
Import Builtins.

Lemma router_ok now request :
  ok (ExampleWorker.fetch now request) = true
  ↔ URL_pathname (url request) = js "/sw.js"
    ∨ URL_pathname (url request) = js "/"
    ∨ URL_pathname (url request) = js "/api/test".
Proof.
  unfold ExampleWorker.fetch.
  case_decide as H1; [split; [by left|reflexivity]|].
  case_decide as H2; [split; [by (right; left)|reflexivity]|].
  case_decide as H3; [split; [by (right; right)|reflexivity]|].
  split; [|by intros [?|[?|?]]].
  intros H. exfalso. revert H. by vm_compute.
Qed.

Lemma StringIndexOf_scheme (scheme rest : jsstring) :
  0x3A ∉ scheme →
  JsString.StringIndexOf (scheme ++ js "://" ++ rest) (js "://")
  = Some (length scheme).
Proof.
  intros Hscheme. apply StringIndexOf_first.
  - rewrite length_app. lia.
  - rewrite drop_app_length. apply startsWith_app.
  - intros j Hj.
    destruct (JsString.startsWith
                (drop j (scheme ++ js "://" ++ rest)) (js "://")) eqn:E;
      [|done].
    destruct Hscheme. apply list_elem_of_lookup. exists j.
    apply startsWith_take in E. apply (f_equal (λ l, l !! 0%nat)) in E.
    rewrite lookup_take_lt in E by (vm_compute; lia).
    rewrite lookup_drop, Nat.add_0_r, lookup_app_l in E by done.
    by rewrite E.
Qed.

Lemma skip_authority_app (authority rest : jsstring) :
  (∀ c, c ∈ authority → c ∉ js "/?#") →
  skip_authority (authority ++ rest) = skip_authority rest.
Proof.
  induction authority as [|c authority IH]; intros Hall; [done|].
  cbn [app skip_authority]. rewrite bool_decide_eq_false_2.
  - apply IH. intros c' Hc'. apply Hall. by right.
  - apply Hall. by left.
Qed.

Lemma URL_pathname_of_script (scheme authority : jsstring) :
  0x3A ∉ scheme →
  (∀ c, c ∈ authority → c ∉ js "/?#") →
  URL_pathname (scheme ++ js "://" ++ authority ++ js "/sw.js")
  = js "/sw.js".
Proof.
  intros Hscheme Hauthority. unfold URL_pathname.
  rewrite (StringIndexOf_scheme _ _ Hscheme).
  replace (scheme ++ js "://" ++ authority ++ js "/sw.js")
    with ((scheme ++ js "://") ++ authority ++ js "/sw.js")
    by (by rewrite <- (assoc_L (++))).
  replace (length scheme + 3)%nat with (length (scheme ++ js "://"))
    by (by rewrite length_app).
  rewrite drop_app_length, (skip_authority_app _ _ Hauthority).
  by vm_compute.
Qed.

End RouterFacts.

(** X14. Through the worker, with the router as the network, a GET
    request is answered with what the router gives, and the answer is
    stored exactly when the path is [/] or [/api/test] and the URL has
    no [/sw.js] in it: the script and the not-found answers are never
    stored. *)
Theorem router_answer_stored_by_path
    (now : Z) (request : Request) (rt : Runtime) :
  method request = js "GET" →
  (ServiceWorker.fetch_handler (served_by_router now) request rt).1
  = Some (ExampleWorker.fetch now request)
  ∧ (CachePut ServiceWorker.CACHE_NAME request
       (ExampleWorker.fetch now request)
       ∈ calls_since rt
           (ServiceWorker.fetch_handler (served_by_router now) request rt).2
     ↔ (Builtins.URL_pathname (url request) = js "/"
        ∨ Builtins.URL_pathname (url request) = js "/api/test")
       ∧ JsString.includes (url request) (js "/sw.js") = false)
  ∧ (caches
       (ServiceWorker.fetch_handler (served_by_router now) request rt).2
     ≠ caches rt →
     (Builtins.URL_pathname (url request) = js "/"
      ∨ Builtins.URL_pathname (url request) = js "/api/test")
     ∧ JsString.includes (url request) (js "/sw.js") = false).
Proof.
  intros Hm.
  destruct (fetch_handler_caches_live_response (served_by_router now)
              request (ExampleWorker.fetch now request) rt Hm eq_refl)
    as (Hanswer & Hput & _ & Hnot).
  assert (ok (ExampleWorker.fetch now request) = true
          ∧ JsString.includes (url request) (js "/sw.js") = false
          ↔ (Builtins.URL_pathname (url request) = js "/"
             ∨ Builtins.URL_pathname (url request) = js "/api/test")
            ∧ JsString.includes (url request) (js "/sw.js") = false)
    as Hiff.
  { rewrite router_ok. split.
    - intros [[Hsw|Hpath] Hno]; [|done].
      assert (serves_worker_script request = true) as Hserves
        by (by apply bool_decide_eq_true).
      apply serves_worker_script_includes in Hserves. congruence.
    - intros [Hpath Hno]. split; [by right|done]. }
  split_and!; [done|by rewrite Hput|].
  intros Hchanged. apply Hiff.
  destruct (decide (ok (ExampleWorker.fetch now request) = true
                    ∧ JsString.includes (url request) (js "/sw.js") = false))
    as [?|Hn]; [done|].
  by destruct (Hnot Hn) as [? _].
Qed.

Lemma router_answer_stored_by_path_witness :
  method (Examples.GET (js "https://example.com/missing")) = js "GET"
  ∧ status
      (ExampleWorker.fetch 1700000000000
         (Examples.GET (js "https://example.com/missing"))) = 404
  ∧ (ServiceWorker.fetch_handler (served_by_router 1700000000000)
       (Examples.GET (js "https://example.com/missing"))
       Examples.fresh_runtime).1
    = Some (ExampleWorker.fetch 1700000000000
              (Examples.GET (js "https://example.com/missing"))).
Proof.
  split_and!; [done|by vm_compute|].
  by apply (router_answer_stored_by_path 1700000000000
              (Examples.GET (js "https://example.com/missing"))
              Examples.fresh_runtime).
Defined.

(** X15. The script is served where the block registers it: the block
    registers [/sw.js], and for a request whose URL is a scheme, an
    authority and the path [/sw.js] the router answers with the text
    of [generateServiceWorker()], status 200, as JavaScript and with
    [no-cache]; the worker stores no such answer. *)
Theorem worker_script_served_where_registered
    (scheme authority : jsstring) (now : Z) (request : Request)
    (rt : Runtime) :
  0x3A ∉ scheme →
  (∀ c, c ∈ authority → c ∉ js "/?#") →
  method request = js "GET" →
  url request = scheme ++ js "://" ++ authority ++ js "/sw.js" →
  JsString.includes offlineScripts
    (js "navigator.serviceWorker.register('/sw.js')") = true
  ∧ ExampleWorker.fetch now request
    = {| status := 200;
         statusText := [];
         headers :=
           [(js "content-type", js "application/javascript");
            (js "cache-control", js "no-cache")];
         body := generateServiceWorker () |}
  ∧ ServiceWorker.fetch_handler (served_by_router now) request rt
    = (Some (ExampleWorker.fetch now request), call (Fetch request) rt).
Proof.
  intros Hscheme Hauthority Hm Hurl.
  pose proof (URL_pathname_of_script _ _ Hscheme Hauthority) as Hpath.
  rewrite <- Hurl in Hpath. split_and!.
  - by vm_compute.
  - unfold ExampleWorker.fetch. rewrite decide_True by done. reflexivity.
  - assert (serves_worker_script request = true) as Hserves
      by (by apply bool_decide_eq_true).
    apply serves_worker_script_includes in Hserves.
    rewrite (fetch_handler_live (served_by_router now) request
               (ExampleWorker.fetch now request) rt Hm eq_refl).
    by rewrite Hserves, andb_false_r.
Qed.

Lemma worker_script_served_where_registered_witness :
  (0x3A ∉ js "https")
  ∧ (∀ c, c ∈ js "example.com:8443" → c ∉ js "/?#")
  ∧ body (ExampleWorker.fetch 0
            (Examples.GET (js "https://example.com:8443/sw.js")))
    = generateServiceWorker ().
Proof.
  assert (0x3A ∉ js "https") as Hscheme
    by (apply (bool_decide_unpack _); by vm_compute).
  assert (∀ c, c ∈ js "example.com:8443" → c ∉ js "/?#") as Hauthority
    by (apply Forall_forall, (bool_decide_unpack _); by vm_compute).
  split_and!; [done|done|].
  destruct (worker_script_served_where_registered
              (js "https") (js "example.com:8443") 0
              (Examples.GET (js "https://example.com:8443/sw.js"))
              Examples.fresh_runtime Hscheme Hauthority eq_refl)
    as (_ & -> & _); [by vm_compute|done].
Defined.

(** ** The helper of the injected block *)

Section HelperFacts.
Import OfflineHelper.
Implicit Types (p : Page) (e : Event) (events : list Event).

Lemma run_cons p e events : run p (e :: events) = run (handle p e) events.
Proof. done. Qed.

Lemma run_app p events events' :
  run p (events ++ events') = run (run p events) events'.
Proof. apply foldl_app. Qed.

(** Breaks a page and an event into cases on which [handle]
    computes. *)
Local Ltac handle_cases p e :=
  destruct p as [sup onl sw ob ub aw li reg po re co];
  destruct e as [| | |type| | |state controller|waiting];
  unfold handle, init, updateApp, setupEventListeners,
    registerServiceWorker, updateStatus, showUpdateBanner;
  cbn [supported isOnline serviceWorker offline_banner_show
       update_banner_show awaiting_DOMContentLoaded listening registering
       posted reloaded console set_isOnline set_serviceWorker
       set_offline_banner_show set_update_banner_show
       set_awaiting_DOMContentLoaded set_listening set_registering
       post_and_reload console_log] in *;
  repeat match goal with
         | |- context [if ?b then _ else _] =>
             match type of b with
             | bool => destruct b eqn:?
             | _ => destruct b
             end;
             cbn [supported isOnline serviceWorker offline_banner_show
                  update_banner_show awaiting_DOMContentLoaded listening
                  registering posted reloaded console set_isOnline
                  set_serviceWorker set_offline_banner_show
                  set_update_banner_show set_awaiting_DOMContentLoaded
                  set_listening set_registering post_and_reload
                  console_log andb negb] in *
         end.

(** Until [init] has run nothing listens and the offline banner is
    hidden; once it has, the banner shows what [isOnline] says. *)
Local Abbreviation banner_consistent p :=
  ((awaiting_DOMContentLoaded p = true →
    listening p = false ∧ offline_banner_show p = false)
   ∧ (awaiting_DOMContentLoaded p = false →
      offline_banner_show p = negb (isOnline p))).

Lemma banner_consistent_load sup onLine loading :
  banner_consistent (load sup onLine loading).
Proof. by destruct sup, onLine, loading. Qed.

Lemma banner_consistent_handle p e :
  banner_consistent p → banner_consistent (handle p e).
Proof.
  intros [H1 H2].
  handle_cases p e; split; intros; try done;
    try (by apply H1); try (by apply H2);
    try (by destruct (H1 eq_refl));
    try (by destruct (H1 ltac:(done))).
Qed.

Lemma banner_consistent_run p events :
  banner_consistent p → banner_consistent (run p events).
Proof.
  revert p. induction events as [|e events IH]; intros p Hp; [done|].
  rewrite run_cons. by apply IH, banner_consistent_handle.
Qed.




(** The update banner is never taken down. *)
Lemma update_banner_handle p e :
  update_banner_show p = true → update_banner_show (handle p e) = true.
Proof. intros H. by handle_cases p e. Qed.

Lemma update_banner_run p events :
  update_banner_show p = true → update_banner_show (run p events) = true.
Proof.
  revert p. induction events as [|e events IH]; intros p Hp; [done|].
  rewrite run_cons. by apply IH, update_banner_handle.
Qed.

(** It is put up by two events only. *)
Lemma update_banner_cause_handle p e :
  update_banner_show (handle p e) = true →
  update_banner_show p = true
  ∨ e = Message (Some (js "CACHE_UPDATED"))
  ∨ e = StateChange (js "installed") true.
Proof.
  handle_cases p e; intros H; try (by left); try done.
  - right. left. by f_equal.
  - right. right.
    match goal with
    | Hc : _ && _ = true |- _ =>
        apply andb_true_iff in Hc as [Hs ->];
        apply bool_decide_eq_true_1 in Hs as ->
    end.
    done.
Qed.

Lemma update_banner_cause_run p events :
  update_banner_show (run p events) = true →
  update_banner_show p = true
  ∨ ∃ e, e ∈ events
         ∧ (e = Message (Some (js "CACHE_UPDATED"))
            ∨ e = StateChange (js "installed") true).
Proof.
  revert p. induction events as [|e events IH]; intros p H; [by left|].
  rewrite run_cons in H. destruct (IH _ H) as [Hp|(e' & He' & Hcause)].
  - destruct (update_banner_cause_handle _ _ Hp) as [?|Hcause];
      [by left|].
    right. exists e. split; [by left|done].
  - right. exists e'. split; [by right|done].
Qed.

(** What has to have happened for a registration to be there and
    for a reload, and what is posted by then. *)
Local Abbreviation posting_consistent p seen :=
  ((registering p = true → supported p = true)
   ∧ (serviceWorker p = true →
      supported p = true ∧ RegisterResolved ∈ seen)
   ∧ (reloaded p = true →
      serviceWorker p = true ∧ UpdateClick true ∈ seen)
   ∧ (posted p = [] ∧ reloaded p = false
      ∨ posted p = [js "SKIP_WAITING"] ∧ reloaded p = true)).

Lemma posting_consistent_load sup onLine loading :
  posting_consistent (load sup onLine loading) (@nil Event).
Proof. destruct sup, onLine, loading; split_and!; try done; by left. Qed.

Lemma posting_consistent_handle p e (seen : list Event) :
  posting_consistent p seen →
  posting_consistent (handle p e) (seen ++ [e]).
Proof.
  intros (H1 & H2 & H3 & H4).
  assert (∀ e', e' ∈ seen → e' ∈ seen ++ [e]) as Hseen
    by (intros e' ?; apply elem_of_app; by left).
  assert (e ∈ seen ++ [e]) as Hnew
    by (apply elem_of_app; right; by left).
  handle_cases p e; split_and!; intros;
    repeat match goal with
           | H : ?P → _, H' : ?P |- _ => specialize (H H')
           | H : true = true → _ |- _ => specialize (H eq_refl)
           | H : _ && _ = true |- _ => apply andb_true_iff in H as [? ?]
           | H : _ ∧ _ |- _ => destruct H
           | H : _ ∨ _ |- _ => destruct H
           end;
    simplify_eq; try done; try (split; by auto);
    try (left; by split); try (right; by split); by auto.
Qed.

Lemma posting_consistent_run p events (seen : list Event) :
  posting_consistent p seen →
  posting_consistent (run p events) (seen ++ events).
Proof.
  revert p seen. induction events as [|e events IH]; intros p seen Hp.
  - by rewrite app_nil_r.
  - rewrite run_cons. replace (seen ++ e :: events)
      with ((seen ++ [e]) ++ events) by (by rewrite <- (assoc_L (++))).
    by apply IH, posting_consistent_handle.
Qed.

End HelperFacts.

(** X16. The offline banner follows the connectivity: whatever the
    platform, the state at load and the events that follow, the banner
    is hidden until [init] has run, and from then on it is shown
    exactly when [isOnline] is false. *)
Theorem offline_banner_follows_connectivity
    (supported onLine loading : bool) (events : list OfflineHelper.Event) :
  OfflineHelper.offline_banner_show
    (OfflineHelper.run (OfflineHelper.load supported onLine loading) events)
  = if OfflineHelper.awaiting_DOMContentLoaded
         (OfflineHelper.run (OfflineHelper.load supported onLine loading)
            events)
    then false
    else negb (OfflineHelper.isOnline
                 (OfflineHelper.run
                    (OfflineHelper.load supported onLine loading) events)).
Proof.
  destruct (banner_consistent_run _ events
              (banner_consistent_load supported onLine loading))
    as [H1 H2].
  destruct (OfflineHelper.awaiting_DOMContentLoaded _) eqn:E.
  - by destruct (H1 eq_refl).
  - by apply H2.
Qed.

(** X17. The update banner is put up by a message of type
    [CACHE_UPDATED] or by a found worker reaching the state
    [installed] while a worker controls the page, by nothing else,
    and once up it stays up whatever follows. *)
Theorem update_banner_shown_on_cause
    (supported onLine loading : bool)
    (events events' : list OfflineHelper.Event) :
  OfflineHelper.update_banner_show
    (OfflineHelper.run (OfflineHelper.load supported onLine loading) events)
  = true →
  (∃ e, e ∈ events
        ∧ (e = OfflineHelper.Message (Some (js "CACHE_UPDATED"))
           ∨ e = OfflineHelper.StateChange (js "installed") true))
  ∧ OfflineHelper.update_banner_show
      (OfflineHelper.run (OfflineHelper.load supported onLine loading)
         (events ++ events'))
    = true.
Proof.
  intros H. split.
  - destruct (update_banner_cause_run _ _ H) as [Hload|?]; [|done].
    by destruct supported, onLine, loading.
  - rewrite run_app. by apply update_banner_run.
Qed.

Lemma update_banner_shown_on_cause_witness :
  OfflineHelper.update_banner_show
    (OfflineHelper.run (OfflineHelper.load true true true)
       [OfflineHelper.DOMContentLoaded;
        OfflineHelper.Message (Some (js "CACHE_UPDATED"))])
  = true
  ∧ OfflineHelper.update_banner_show
      (OfflineHelper.run (OfflineHelper.load true true true)
         ([OfflineHelper.DOMContentLoaded;
           OfflineHelper.Message (Some (js "CACHE_UPDATED"))]
          ++ [OfflineHelper.Offline; OfflineHelper.Online]))
    = true.
Proof.
  split; [by vm_compute|].
  apply (update_banner_shown_on_cause true true true
           [OfflineHelper.DOMContentLoaded;
            OfflineHelper.Message (Some (js "CACHE_UPDATED"))]
           [OfflineHelper.Offline; OfflineHelper.Online]).
  by vm_compute.
Defined.


(** X19. The page and the worker agree on the message: whatever the
    helper posts, the message handler of the worker takes as the
    order to skip waiting, and it touches no cache for it. *)
Theorem posted_message_skips_waiting
    (supported onLine loading : bool) (events : list OfflineHelper.Event)
    (type : jsstring) (rt : Runtime) :
  type ∈ OfflineHelper.posted
           (OfflineHelper.run (OfflineHelper.load supported onLine loading)
              events) →
  skippedWaiting (ServiceWorker.message (Some type) rt).2 = true
  ∧ caches (ServiceWorker.message (Some type) rt).2 = caches rt
  ∧ calls_since rt (ServiceWorker.message (Some type) rt).2 = [SkipWaiting].
Proof.
  pose proof (posting_consistent_run _ events []
                (posting_consistent_load supported onLine loading))
    as (_ & _ & _ & [[-> _]|[-> _]]).
  - by intros ?%elem_of_nil.
  - intros ->%list_elem_of_singleton. split_and!; [done|done|].
    by apply calls_since_app.
Qed.

Lemma posted_message_skips_waiting_witness :
  js "SKIP_WAITING"
    ∈ OfflineHelper.posted
        (OfflineHelper.run (OfflineHelper.load true true false)
           [OfflineHelper.RegisterResolved; OfflineHelper.UpdateClick true])
  ∧ skippedWaiting
      (ServiceWorker.message (Some (js "SKIP_WAITING"))
         Examples.fresh_runtime).2
    = true.
Proof.
  assert (js "SKIP_WAITING"
            ∈ OfflineHelper.posted
                (OfflineHelper.run (OfflineHelper.load true true false)
                   [OfflineHelper.RegisterResolved;
                    OfflineHelper.UpdateClick true])) as Hposted
    by (apply (bool_decide_unpack _); by vm_compute).
  split; [done|].
  by apply (posted_message_skips_waiting true true false
              [OfflineHelper.RegisterResolved; OfflineHelper.UpdateClick true]
              (js "SKIP_WAITING") Examples.fresh_runtime).
Defined.
